(** * The xpkg marshaler of upbound/up, embedded and verified

    Source: [internal/xpkg/dep/marshaler/xpkg/marshaler.go].

    The marshaler turns an image or a directory into a [ParsedPackage]:
    [FromImage] / [FromDir] acquire a manifest stream, [parse] decodes,
    classifies and lints it, and [finalizePkg] extracts the dependencies,
    builds the (group, version, kind) -> validator index and fills in the
    identity fields.

    Go's [(value, error)] results and run-time panics are an [outcome]; the
    things the Go code mutates (the validator map [v] of [finalizePkg], the
    [digest] variable that [skipDigest] writes through a pointer, the
    allocation of validators) live in an explicit [store] that is threaded
    through a small state-and-error monad.  The packages the marshaler
    imports (Kubernetes apiextensions, kube-openapi, crossplane-runtime's
    parser, afero, go-containerregistry, the repository's own linters) are
    collaborators: their types are opaque and their functions are fields of
    a class, so every theorem holds for all of them. *)

From Stdlib Require Import Ascii String.
From stdpp Require Import gmap strings list fin_maps.

Open Scope string_scope.

(** ** Errors and outcomes *)

(** [errors.New msg], [errors.Wrap err msg], and the errors collaborators
    return, which the marshaler never inspects. *)
Inductive error : Type :=
| New (msg : string)
| Wrap (cause : error) (msg : string)
| External (what : string).

(** What a Go call of result type [(A, error)] can do: return a value and a
    nil error, return an error, or panic. *)
Inductive outcome (A : Type) : Type :=
| Ok (a : A)
| Fail (e : error)
| Panic.
Arguments Ok {A} a.
Arguments Fail {A} e.
Arguments Panic {A}.

Definition is_ok {A} (o : outcome A) : bool :=
  match o with Ok _ => true | _ => false end.

(** ** Constants of the source file *)

Definition errFailedToParsePkgYaml : string := "failed to parse package yaml".
Definition errLintPackage : string := "failed to lint package".
Definition errOpenPackageStream : string := "failed to open package stream file".
Definition errFaileToAcquireDigest : string := "failed to pull digest from image".
Definition errFailedToConvertMetaToPackage : string := "failed to convert meta to package".
Definition errInvalidPath : string := "invalid path provided for package lookup".
Definition errNotExactlyOneMeta : string := "not exactly one package meta type".
Definition errObjectNotKnownType : string := "object is not a known type".

Definition digestPrefix : string := "sha256:".
Definition dockerhub : string := "index.docker.io".

(** ** Constants of the crossplane API packages

    [v1beta1.PackageType] is a string type; its zero value (the empty
    string) is the unset package type. *)

Definition PackageType : Type := string.
Definition ConfigurationPackageType : PackageType := "Configuration".
Definition ProviderPackageType : PackageType := "Provider".
Definition UnsetPackageType : PackageType := "".

(** [xpmetav1.ConfigurationKind]. *)
Definition ConfigurationKind : string := "Configuration".

(** ** Go's [strings] and [path/filepath] functions the marshaler calls *)

(** [strings.Split s sep] for a separator of one byte: the substrings
    between the separators, one more than there are separators. *)
Fixpoint strings_Split (s : string) (sep : ascii) : list string :=
  match s with
  | EmptyString => [EmptyString]
  | String c rest =>
      if Ascii.eqb c sep then EmptyString :: strings_Split rest sep
      else match strings_Split rest sep with
           | part :: parts => String c part :: parts
           | [] => [String c EmptyString]
           end
  end.

(** [strings.HasPrefix s prefix]. *)
Fixpoint strings_HasPrefix (s pre : string) : bool :=
  match pre, s with
  | EmptyString, _ => true
  | String _ _, EmptyString => false
  | String p pre', String c s' => Ascii.eqb c p && strings_HasPrefix s' pre'
  end.

Definition Separator : ascii := "/"%char.

(** The first loop of [filepath.Base]: strip trailing slashes. *)
Fixpoint strip_trailing_separators (path : string) : string :=
  match path with
  | EmptyString => EmptyString
  | String c rest =>
      match strip_trailing_separators rest with
      | EmptyString => if Ascii.eqb c Separator then EmptyString
                       else String c EmptyString
      | kept => String c kept
      end
  end.

(** The second loop of [filepath.Base]: what follows the last separator
    (the whole path when it has none). *)
Fixpoint last_element (path : string) : string :=
  match path with
  | EmptyString => EmptyString
  | String c rest =>
      if existsb (Ascii.eqb Separator) (list_ascii_of_string rest)
      then last_element rest
      else if Ascii.eqb c Separator then rest else path
  end.

(** [filepath.Base path] on a system whose separator is the slash and whose
    volume names are empty. *)
Definition filepath_Base (path : string) : string :=
  match path with
  | EmptyString => "."
  | _ =>
      match last_element (strip_trailing_separators path) with
      | EmptyString => String Separator EmptyString
      | base => base
      end
  end.

(** ** Group/version/kind keys *)

Record GroupVersionKind : Type := {
  Group : string;
  Version : string;
  Kind : string
}.

#[global] Instance GroupVersionKind_eq_dec : EqDecision GroupVersionKind.
Proof. solve_decision. Defined.

#[global] Instance GroupVersionKind_countable : Countable GroupVersionKind.
Proof.
  refine (inj_countable'
            (fun k => (Group k, Version k, Kind k))
            (fun t => {| Group := t.1.1; Version := t.1.2; Kind := t.2 |}) _).
  by intros [].
Defined.

Definition gvk (group version kind : string) : GroupVersionKind :=
  {| Group := group; Version := version; Kind := kind |}.

(** ** Dependencies *)

(** [xpmetav1.Dependency]: two optional references and a version. *)
Record meta_Dependency : Type := {
  Provider : option string;
  Configuration : option string;
  dep_Version : string
}.

(** [v1beta1.Dependency]. *)
Record Dependency : Type := {
  Package : string;
  Type_ : PackageType;
  Constraints : string
}.

Definition zero_Dependency : Dependency :=
  {| Package := ""; Type_ := UnsetPackageType; Constraints := "" |}.

Definition convertToV1beta1 (i : meta_Dependency) : Dependency :=
  let betaD :=
    {| Package := ""; Type_ := UnsetPackageType; Constraints := dep_Version i |} in
  let betaD :=
    match Provider i, Configuration i with
    | Some provider, None =>
        {| Package := provider; Type_ := ProviderPackageType;
           Constraints := Constraints betaD |}
    | _, _ => betaD
    end in
  let betaD :=
    match Configuration i, Provider i with
    | Some configuration, None =>
        {| Package := configuration; Type_ := ConfigurationPackageType;
           Constraints := Constraints betaD |}
    | _, _ => betaD
    end in
  betaD.

(** ** The derived package name *)

(** [fmt.Sprintf("%s/%s", registry, repo)] is the two strings around a
    slash. *)
Definition derivePkgName (registry repo : string) : string :=
  if bool_decide (registry ≠ dockerhub)
  then registry +:+ "/" +:+ repo
  else repo.

(** ** Schema-bearing resources

    The Kubernetes and crossplane API structs, cut to the fields the
    marshaler reads.  A pointer field is an [option]; the JSON schema
    documents themselves are opaque (see [Opaque] below). *)

(** [CustomResourceValidation] of any apiextensions dialect, over that
    dialect's [JSONSchemaProps]. *)
Record CustomResourceValidation (P : Type) : Type := {
  OpenAPIV3Schema : option P
}.
Arguments OpenAPIV3Schema {P} _.

(** crossplane's [CompositeResourceValidation]: the schema is a
    [runtime.RawExtension], whose [Raw] bytes are kept. *)
Record CompositeResourceValidation : Type := {
  OpenAPIV3Schema_Raw : string
}.

(** A declared version of a definition: its name and its schema pointer. *)
Record DefinitionVersion (S : Type) : Type := {
  Name : string;
  Schema : option S
}.
Arguments Name {S} _.
Arguments Schema {S} _.

Record DefinitionNames : Type := {
  names_Kind : string
}.

(** The spec of a v1beta1 or internal CustomResourceDefinition: besides the
    versions it has the deprecated top-level [Version] and [Validation]. *)
Record LegacySpec (P : Type) : Type := {
  legacy_Group : string;
  legacy_Names : DefinitionNames;
  legacy_Version : string;
  legacy_Validation : option (CustomResourceValidation P);
  legacy_Versions : list (DefinitionVersion (CustomResourceValidation P))
}.
Arguments legacy_Group {P} _.
Arguments legacy_Names {P} _.
Arguments legacy_Version {P} _.
Arguments legacy_Validation {P} _.
Arguments legacy_Versions {P} _.

(** The spec of a v1 CustomResourceDefinition or of a
    CompositeResourceDefinition: every version has its own schema. *)
Record CurrentSpec (S : Type) : Type := {
  spec_Group : string;
  spec_Names : DefinitionNames;
  spec_Versions : list (DefinitionVersion S)
}.
Arguments spec_Group {S} _.
Arguments spec_Names {S} _.
Arguments spec_Versions {S} _.

Record Definition_ (S : Type) : Type := {
  Spec : S
}.
Arguments Spec {S} _.

(** [os.FileInfo], of which the filters read [IsDir] only. *)
Record os_FileInfo : Type := {
  IsDir : bool
}.

(** The two linters [parse] chooses from. *)
Inductive linter : Type :=
| ConfigurationLinter
| ProviderLinter.

Definition NewConfigurationLinter : linter := ConfigurationLinter.
Definition NewProviderLinter : linter := ProviderLinter.

(** ** Opaque types of the collaborators *)

Class Opaque : Type := {
  (** [v1beta1ext.JSONSchemaProps] *)
  JSONSchemaProps_v1beta1 : Type;
  (** [v1ext.JSONSchemaProps] *)
  JSONSchemaProps_v1 : Type;
  (** [apiextensions.JSONSchemaProps] *)
  JSONSchemaProps_internal : Type;
  (** kube-openapi's [spec.Schema] *)
  spec_Schema : Type;
  (** [afero.Fs] *)
  afero_Fs : Type;
  (** go-containerregistry's [v1.Image] *)
  v1_Image : Type;
  (** [io.ReadCloser] *)
  ReadCloser : Type;
  (** [xpmetav1.Pkg] *)
  meta_Pkg : Type
}.

Section Model.
Context `{Ty : Opaque}.

Definition v1beta1ext_CustomResourceDefinition : Type :=
  Definition_ (LegacySpec JSONSchemaProps_v1beta1).
Definition apiextensions_CustomResourceDefinition : Type :=
  Definition_ (LegacySpec JSONSchemaProps_internal).
Definition v1ext_CustomResourceDefinition : Type :=
  Definition_ (CurrentSpec (CustomResourceValidation JSONSchemaProps_v1)).
Definition xpv1beta1ext_CompositeResourceDefinition : Type :=
  Definition_ (CurrentSpec CompositeResourceValidation).
Definition xpv1ext_CompositeResourceDefinition : Type :=
  Definition_ (CurrentSpec CompositeResourceValidation).

(** The dynamic type of a [runtime.Object], as the type switch of
    [finalizePkg] tells them apart. *)
Inductive dynamic_type : Type :=
| v1beta1ext_CRD (rd : v1beta1ext_CustomResourceDefinition)
| v1ext_CRD (rd : v1ext_CustomResourceDefinition)
| xpv1beta1ext_XRD (rd : xpv1beta1ext_CompositeResourceDefinition)
| xpv1ext_XRD (rd : xpv1ext_CompositeResourceDefinition)
| other_type (go_type : string).

(** A [runtime.Object]: the kind its [GetObjectKind().GroupVersionKind()]
    reports, and its dynamic type. *)
Record runtime_Object : Type := {
  ObjectKind : string;
  dynamic : dynamic_type
}.

(** crossplane-runtime's [parser.Package]. *)
Record parser_Package : Type := {
  GetMeta : list runtime_Object;
  GetObjects : list runtime_Object
}.

(** One call of the walk function by [afero.Walk]. *)
Record visit : Type := {
  visit_path : string;
  visit_info : os_FileInfo;
  visit_err : option error
}.

(** A compiled validator, [*validate.SchemaValidator]: the address it was
    allocated at, and the OpenAPI schema it checks. *)
Record SchemaValidator : Type := {
  addr : nat;
  schema : spec_Schema
}.

(** ** The collaborators' functions *)

Class Collaborators : Type := {
  (** [v1beta1ext.Convert_v1beta1_CustomResourceDefinition_To_apiextensions_CustomResourceDefinition] *)
  Convert_v1beta1_CustomResourceDefinition :
    v1beta1ext_CustomResourceDefinition ->
    error + apiextensions_CustomResourceDefinition;
  (** the schema [validation.NewSchemaValidator] builds from a possibly
      nil internal validation, before it allocates the validator *)
  validation_schema :
    option (CustomResourceValidation JSONSchemaProps_internal) ->
    error + spec_Schema;
  (** [v1ext.Convert_v1_JSONSchemaProps_To_apiextensions_JSONSchemaProps] *)
  Convert_v1_JSONSchemaProps :
    JSONSchemaProps_v1 -> error + JSONSchemaProps_internal;
  (** [validation.ConvertJSONSchemaPropsWithPostProcess] with
      [StripUnsupportedFormatsPostProcess] *)
  ConvertJSONSchemaPropsWithPostProcess :
    JSONSchemaProps_internal -> error + spec_Schema;
  (** [json.Unmarshal] into a [v1ext.JSONSchemaProps] *)
  json_Unmarshal : string -> error + JSONSchemaProps_v1;
  (** [xpkg.TryConvertToPkg] with the Provider and Configuration candidates *)
  TryConvertToPkg : runtime_Object -> option meta_Pkg;
  GetDependencies : meta_Pkg -> list meta_Dependency;
  (** [linter.Lint pkg]; [None] is the nil error *)
  Lint : linter -> parser_Package -> option error;
  (** the calls [afero.Walk fs dir] makes to a walk function that returns nil *)
  Walk : afero_Fs -> string -> list visit;
  (** the [FsReadCloser] over the paths the walk kept *)
  FsReadCloser : afero_Fs -> string -> list string -> ReadCloser;
  (** [i.Digest()], rendered by [String()] *)
  Digest : v1_Image -> error + string;
  (** [fs.Open(xpkg.StreamFile)] on the tar filesystem extracted from the image *)
  OpenStreamFile : v1_Image -> error + ReadCloser
}.
Context `{Co : Collaborators}.

(** Modelled from the spec: the interface [PackageParser] is declared in a
    file of the package that is not among the sources.  It is the spec's
    generic-package decoder, [parse(stream) -> (metaObjects, bodyObjects)],
    which fails with an error of its own on malformed input. *)
Definition PackageParser : Type := ReadCloser -> error + parser_Package.

Record Marshaler : Type := {
  p : PackageParser
}.

(** Modelled from the spec: the struct [ParsedPackage] is declared in a
    file of the package that is not among the sources.  Its fields are the
    ones [parse] and [finalizePkg] write, the spec's Parsed Package: the
    meta object, the body objects, the package type, the dependencies, the
    schema index and the identity fields. *)
Record ParsedPackage : Type := {
  MetaObj : runtime_Object;
  Objs : list runtime_Object;
  PType : PackageType;
  Deps : list Dependency;
  GVKtoV : gmap GroupVersionKind SchemaValidator;
  DepName : string;
  Reg : string;
  SHA : string;
  Ver : string
}.

(** ** The store and the trace *)

(** The calls to collaborators and the writes to the validator map, in the
    order they happen. *)
Inductive event : Type :=
| CallDigest
| CallOpenStreamFile
| CallWalk (dir : string)
| CallParse
| CallLint (l : linter)
| CallTryConvertToPkg
| CompileInternal (val : option (CustomResourceValidation JSONSchemaProps_internal))
| CompileV1 (props : JSONSchemaProps_v1)
| Stored (k : GroupVersionKind) (sv : SchemaValidator).

Record store : Type := {
  (** the map [v] of [finalizePkg], which the four builders write as [acc] *)
  acc : gmap GroupVersionKind SchemaValidator;
  (** the variable [digest] of [FromDir], which [skipDigest] writes *)
  digest : string;
  (** the address of the next validator *)
  next_addr : nat;
  trace : list event
}.

Definition set_acc (m : gmap GroupVersionKind SchemaValidator) (s : store) : store :=
  {| acc := m; digest := digest s; next_addr := next_addr s; trace := trace s |}.
Definition set_digest (d : string) (s : store) : store :=
  {| acc := acc s; digest := d; next_addr := next_addr s; trace := trace s |}.
Definition bump_addr (s : store) : store :=
  {| acc := acc s; digest := digest s; next_addr := S (next_addr s); trace := trace s |}.
Definition log (e : event) (s : store) : store :=
  {| acc := acc s; digest := digest s; next_addr := next_addr s;
     trace := trace s ++ [e] |}.

Definition empty_store : store :=
  {| acc := ∅; digest := ""; next_addr := 0; trace := [] |}.

(** ** The monad *)

Definition M (A : Type) : Type := store -> outcome A * store.

Definition ret {A} (a : A) : M A := fun s => (Ok a, s).
Definition fail {A} (e : error) : M A := fun s => (Fail e, s).
Definition panic {A} : M A := fun s => (Panic, s).
Definition bind {A B} (m : M A) (k : A -> M B) : M B :=
  fun s =>
    match m s with
    | (Ok a, s') => k a s'
    | (Fail e, s') => (Fail e, s')
    | (Panic, s') => (Panic, s')
    end.
Definition emit (e : event) : M unit := fun s => (Ok tt, log e s).
Definition modify (f : store -> store) : M unit := fun s => (Ok tt, f s).
Definition gets {A} (f : store -> A) : M A := fun s => (Ok (f s), s).
(** A collaborator's [(value, error)] result. *)
Definition lift {A} (r : error + A) : M A :=
  match r with inl e => fail e | inr a => ret a end.

End Model.

Notation "'let*' x ':=' m 'in' k" := (bind m (fun x => k))
  (at level 10, x name, m at level 100, k at level 200, only parsing).

Section Operations.
Context `{Ty : Opaque} `{Co : @Collaborators Ty}.

(** [for _, x := range l { body }], where the body may return early with
    an error. *)
Fixpoint for_range {A} (l : list A) (body : A -> M unit) : M unit :=
  match l with
  | [] => ret tt
  | x :: rest => let* _ := body x in for_range rest body
  end.

(** ** Dependency extraction *)

(** The loop of [determineDeps]: [out[i] = convertToV1beta1(d)] for the
    elements [d] of the source list from index [i] on. *)
Fixpoint fill_deps (i : nat) (ds : list meta_Dependency) (out : list Dependency)
  : list Dependency :=
  match ds with
  | [] => out
  | d :: rest => fill_deps (S i) rest (<[i := convertToV1beta1 d]> out)
  end.

Definition determineDeps (o : runtime_Object) : M (list Dependency) :=
  let* _ := emit CallTryConvertToPkg in
  match TryConvertToPkg o with
  | None => fail (New errFailedToConvertMetaToPackage)
  | Some pkg =>
      let out := replicate (length (GetDependencies pkg)) zero_Dependency in
      ret (fill_deps 0 (GetDependencies pkg) out)
  end.

(** ** Building validators *)

(** [validate.NewSchemaValidator]: a fresh validator for an OpenAPI
    schema. *)
Definition validate_NewSchemaValidator (sch : spec_Schema) : M SchemaValidator :=
  let* a := gets next_addr in
  let* _ := modify bump_addr in
  ret {| addr := a; schema := sch |}.

(** [validation.NewSchemaValidator], which accepts a nil validation. *)
Definition validation_NewSchemaValidator
    (val : option (CustomResourceValidation JSONSchemaProps_internal))
  : M SchemaValidator :=
  let* _ := emit (CompileInternal val) in
  let* openapiSchema := lift (validation_schema val) in
  validate_NewSchemaValidator openapiSchema.

Definition newV1SchemaValidator (sch : JSONSchemaProps_v1) : M SchemaValidator :=
  let* _ := emit (CompileV1 sch) in
  let* out := lift (Convert_v1_JSONSchemaProps sch) in
  let* openapiSchema := lift (ConvertJSONSchemaPropsWithPostProcess out) in
  validate_NewSchemaValidator openapiSchema.

(** [acc[k] = sv]. *)
Definition store_validator (k : GroupVersionKind) (sv : SchemaValidator) : M unit :=
  let* _ := modify (fun s => set_acc (<[k := sv]> (acc s)) s) in
  emit (Stored k sv).

Definition validatorsFromV1Beta1CRD (c : v1beta1ext_CustomResourceDefinition)
  : M unit :=
  let* internal := lift (Convert_v1beta1_CustomResourceDefinition c) in
  match legacy_Validation (Spec internal) with
  | Some val =>
      let* sv := validation_NewSchemaValidator (Some val) in
      for_range (legacy_Versions (Spec internal)) (fun v =>
        store_validator
          (gvk (legacy_Group (Spec internal)) (Name v)
               (names_Kind (legacy_Names (Spec internal)))) sv)
  | None =>
      for_range (legacy_Versions (Spec internal)) (fun v =>
        let* sv := validation_NewSchemaValidator (Schema v) in
        store_validator
          (gvk (legacy_Group (Spec internal)) (Name v)
               (names_Kind (legacy_Names (Spec internal)))) sv)
  end.

(** [*v.Schema.OpenAPIV3Schema] dereferences two pointers. *)
Definition validatorsFromV1CRD (c : v1ext_CustomResourceDefinition) : M unit :=
  for_range (spec_Versions (Spec c)) (fun v =>
    match Schema v with
    | None => panic
    | Some val =>
        match OpenAPIV3Schema val with
        | None => panic
        | Some props =>
            let* sv := newV1SchemaValidator props in
            store_validator
              (gvk (spec_Group (Spec c)) (Name v) (names_Kind (spec_Names (Spec c))))
              sv
        end
    end).

(** [v.Schema.OpenAPIV3Schema.Raw] dereferences the version's schema
    pointer. *)
Definition validatorsFromV1Beta1XRD (x : xpv1beta1ext_CompositeResourceDefinition)
  : M unit :=
  for_range (spec_Versions (Spec x)) (fun v =>
    match Schema v with
    | None => panic
    | Some val =>
        let* props := lift (json_Unmarshal (OpenAPIV3Schema_Raw val)) in
        let* sv := newV1SchemaValidator props in
        store_validator
          (gvk (spec_Group (Spec x)) (Name v) (names_Kind (spec_Names (Spec x))))
          sv
    end).

Definition validatorsFromV1XRD (x : xpv1ext_CompositeResourceDefinition)
  : M unit :=
  for_range (spec_Versions (Spec x)) (fun ver =>
    match Schema ver with
    | None => panic
    | Some val =>
        let* props := lift (json_Unmarshal (OpenAPIV3Schema_Raw val)) in
        let* sv := newV1SchemaValidator props in
        store_validator
          (gvk (spec_Group (Spec x)) (Name ver) (names_Kind (spec_Names (Spec x))))
          sv
    end).

(** ** Finalizing *)

(** Modelled from the spec: the method [Objects()] of [ParsedPackage],
    declared with the struct; it returns the spec's body objects, the list
    [parse] stored in [Objs]. *)
Definition Objects (pkg : ParsedPackage) : list runtime_Object := Objs pkg.

(** One iteration of the type switch of [finalizePkg]. *)
Definition build_validators (o : runtime_Object) : M unit :=
  match dynamic o with
  | v1beta1ext_CRD rd => validatorsFromV1Beta1CRD rd
  | v1ext_CRD rd => validatorsFromV1CRD rd
  | xpv1beta1ext_XRD rd => validatorsFromV1Beta1XRD rd
  | xpv1ext_XRD rd => validatorsFromV1XRD rd
  | other_type _ => fail (New errObjectNotKnownType)
  end.

Definition finalizePkg (reg repo ver digest : string) (pkg : ParsedPackage)
  : M ParsedPackage :=
  let* deps := determineDeps (MetaObj pkg) in
  let* _ := modify (set_acc ∅) in
  let* _ := for_range (Objects pkg) build_validators in
  let* v := gets acc in
  ret {| MetaObj := MetaObj pkg; Objs := Objs pkg; PType := PType pkg;
         Deps := deps; GVKtoV := v; DepName := derivePkgName reg repo;
         Reg := reg; SHA := digest; Ver := ver |}.

(** ** Parsing, classifying and linting *)

Definition parse (r : Marshaler) (reader : ReadCloser) : M ParsedPackage :=
  let* _ := emit CallParse in
  match p r reader with
  | inl err => fail (Wrap err errFailedToParsePkgYaml)
  | inr pkg =>
      let metas := GetMeta pkg in
      if bool_decide (length metas ≠ 1) then fail (New errNotExactlyOneMeta)
      else
        match metas !! 0 with
        | None => panic
        | Some meta =>
            let '(linter, pkgType) :=
              if bool_decide (ObjectKind meta = ConfigurationKind)
              then (NewConfigurationLinter, ConfigurationPackageType)
              else (NewProviderLinter, ProviderPackageType) in
            let* _ := emit (CallLint linter) in
            match Lint linter pkg with
            | Some err => fail (Wrap err errLintPackage)
            | None =>
                ret {| MetaObj := meta; Objs := GetObjects pkg; PType := pkgType;
                       Deps := []; GVKtoV := ∅; DepName := ""; Reg := "";
                       SHA := ""; Ver := "" |}
            end
        end
  end.

(** ** Acquiring the manifest stream

    [parser.NewFsReadCloser] and [parser.SkipDirs] belong to
    crossplane-runtime.  They are written out here, after their documented
    behaviour, because the order in which the walk asks its filters decides
    which paths [skipDigest] sees: the walk function returns a visit's
    error if it has one, asks the filters in the order given, leaves the
    path out at the first filter that says so, and keeps it otherwise. *)

(** crossplane-runtime's [parser.FilterFn]: whether to leave the path out. *)
Definition FilterFn : Type := string -> os_FileInfo -> M bool.

(** [parser.SkipDirs()]. *)
Definition SkipDirs : FilterFn := fun _ info => ret (IsDir info).

(** [skipDigest(&digest)]: the pointer is to the [digest] cell of the
    store. *)
Definition skipDigest : FilterFn := fun path _ =>
  let base := filepath_Base path in
  if strings_HasPrefix base digestPrefix
  then let* _ := modify (set_digest base) in ret true
  else ret false.

(** The filter loop of the walk function of [parser.NewFsReadCloser]: the
    first filter that says so leaves the path out, and the later filters
    are not asked. *)
Fixpoint filtered (fns : list FilterFn) (path : string) (info : os_FileInfo)
  : M bool :=
  match fns with
  | [] => ret false
  | fn :: rest =>
      let* filter := fn path info in
      if filter then ret true else filtered rest path info
  end.

(** The walk function of [parser.NewFsReadCloser], called on each visit in
    turn; an error ends the walk. *)
Fixpoint walk (fns : list FilterFn) (visits : list visit) (paths : list string)
  : M (list string) :=
  match visits with
  | [] => ret paths
  | vi :: rest =>
      match visit_err vi with
      | Some err => fail err
      | None =>
          let* skip := filtered fns (visit_path vi) (visit_info vi) in
          walk fns rest (if skip then paths else paths ++ [visit_path vi])
      end
  end.

(** [parser.NewFsReadCloser fs dir fns...]. *)
Definition NewFsReadCloser (fs : afero_Fs) (dir : string) (fns : list FilterFn)
  : M ReadCloser :=
  let* _ := emit (CallWalk dir) in
  let* paths := walk fns (Walk fs dir) [] in
  ret (FsReadCloser fs dir paths).

Definition FromImage (r : Marshaler) (reg repo ver : string) (i : v1_Image)
  : M ParsedPackage :=
  let* _ := emit CallDigest in
  match Digest i with
  | inl err => fail (Wrap err errFaileToAcquireDigest)
  | inr digest =>
      let* _ := emit CallOpenStreamFile in
      match OpenStreamFile i with
      | inl err => fail (Wrap err errOpenPackageStream)
      | inr pkgYaml =>
          let* pkg := parse r pkgYaml in
          finalizePkg reg repo ver digest pkg
      end
  end.

Definition FromDir (r : Marshaler) (fs : afero_Fs) (path reg repo : string)
  : M ParsedPackage :=
  let parts := strings_Split path "@"%char in
  if bool_decide (length parts ≠ 2) then fail (New errInvalidPath)
  else
    let* _ := modify (set_digest "") in
    let* reader := NewFsReadCloser fs path [SkipDirs; skipDigest] in
    let* pkg := parse r reader in
    let* digest := gets digest in
    match parts !! 1 with
    | None => panic
    | Some ver => finalizePkg reg repo ver digest pkg
    end.

End Operations.

(** ** Constructing a marshaler *)

Section Construction.
Context `{Ty : Opaque}.

(** [MarshalerOption]: a function that updates the marshaler it is
    given. *)
Definition MarshalerOption : Type := Marshaler -> Marshaler.

(** [WithParser p]: [r.p = p], on a struct whose only field is [p]. *)
Definition WithParser (parser : PackageParser) : MarshalerOption :=
  fun _ => {| p := parser |}.

(** [NewMarshaler opts...].  [xpkgparser_New] is what [xpkgparser.New()]
    returns; the default parser is code of the repository that is not
    among the sources, so its result is an argument. *)
Definition NewMarshaler (xpkgparser_New : error + PackageParser)
    (opts : list MarshalerOption) : error + Marshaler :=
  match xpkgparser_New with
  | inl err => inl err
  | inr parser => inr (foldl (fun r o => o r) {| p := parser |} opts)
  end.

End Construction.

(** ** A concrete set of collaborators

    Used to run the marshaler on explicit inputs.  Schema documents are
    their JSON text, every conversion is the identity, [json.Unmarshal]
    rejects text that does not open an object, a filesystem is the list of
    visits a walk of it makes, an image is its digest, a reader is the list
    of paths it reads, and the object that converts to a package
    description is one of Go type [*v1.Provider] or [*v1.Configuration]. *)

Definition demo_types : Opaque :=
  {| JSONSchemaProps_v1beta1 := string;
     JSONSchemaProps_v1 := string;
     JSONSchemaProps_internal := string;
     spec_Schema := string;
     afero_Fs := list visit;
     v1_Image := string;
     ReadCloser := list string;
     meta_Pkg := list meta_Dependency |}.

Definition demo_json_Unmarshal (raw : string) : error + string :=
  if strings_HasPrefix raw "{" then inr raw
  else inl (External "invalid character looking for beginning of value").

Definition demo_TryConvertToPkg (deps : list meta_Dependency)
    (o : @runtime_Object demo_types) : option (list meta_Dependency) :=
  match dynamic o with
  | other_type "*v1.Provider" | other_type "*v1.Configuration" => Some deps
  | _ => None
  end.

Definition demo_collaborators (deps : list meta_Dependency)
  : @Collaborators demo_types :=
  {| Convert_v1beta1_CustomResourceDefinition :=
       fun c : @v1beta1ext_CustomResourceDefinition demo_types => inr c;
     validation_schema :=
       fun val : option (CustomResourceValidation string) =>
         inr (default "" (val ≫= OpenAPIV3Schema));
     Convert_v1_JSONSchemaProps := fun props : string => inr props;
     ConvertJSONSchemaPropsWithPostProcess := fun props : string => inr props;
     json_Unmarshal := demo_json_Unmarshal;
     TryConvertToPkg := demo_TryConvertToPkg deps;
     GetDependencies := fun pkg : list meta_Dependency => pkg;
     Lint := fun _ _ => None;
     Walk := fun (fs : list visit) _ => fs;
     FsReadCloser := fun _ _ (paths : list string) => paths;
     Digest := fun i : string => inr i;
     OpenStreamFile := fun _ : string => inr [] |}.

(** A marshaler whose parser decodes every stream to [pkg]. *)
Definition demo_marshaler (pkg : @parser_Package demo_types)
  : @Marshaler demo_types :=
  {| p := fun _ => inr pkg |}.

Definition demo_provider_meta : @runtime_Object demo_types :=
  {| ObjectKind := "Provider"; dynamic := other_type "*v1.Provider" |}.

Definition demo_configuration_meta : @runtime_Object demo_types :=
  {| ObjectKind := "Configuration"; dynamic := other_type "*v1.Configuration" |}.

(** A package as [parse] returns it. *)
Definition demo_parsed (objs : list (@runtime_Object demo_types))
  : @ParsedPackage demo_types :=
  {| MetaObj := demo_provider_meta; Objs := objs; PType := ProviderPackageType;
     Deps := []; GVKtoV := ∅; DepName := ""; Reg := ""; SHA := ""; Ver := "" |}.

(** *** Inputs for the concrete runs *)

Section DemoInputs.
#[local] Existing Instance demo_types.


(** A v1 definition of kind [Widget] in group [example.org] with the given
    versions. *)
Definition demo_v1_crd
    (versions : list (DefinitionVersion (CustomResourceValidation string)))
  : v1ext_CustomResourceDefinition :=
  {| Spec := {| spec_Group := "example.org";
                spec_Names := {| names_Kind := "Widget" |};
                spec_Versions := versions |} |}.

Definition demo_v1_version (name schema : string)
  : DefinitionVersion (CustomResourceValidation string) :=
  {| Name := name; Schema := Some {| OpenAPIV3Schema := Some schema |} |}.

Definition demo_v1_version_without_schema (name : string)
  : DefinitionVersion (CustomResourceValidation string) :=
  {| Name := name; Schema := None |}.

(** A composite resource definition whose one version has the given raw
    schema bytes. *)
Definition demo_xrd (raw : string) : xpv1ext_CompositeResourceDefinition :=
  {| Spec := {| spec_Group := "example.org";
                spec_Names := {| names_Kind := "XThing" |};
                spec_Versions :=
                  [{| Name := "v1";
                      Schema := Some {| OpenAPIV3Schema_Raw := raw |} |}] |} |}.

Definition demo_object (kind : string) (d : dynamic_type) : runtime_Object :=
  {| ObjectKind := kind; dynamic := d |}.

(** An object of a type the marshaler does not know. *)
Definition demo_unknown : runtime_Object :=
  demo_object "ConfigMap" (other_type "*v1.ConfigMap").

Definition demo_file (path : string) : visit :=
  {| visit_path := path; visit_info := {| IsDir := false |}; visit_err := None |}.

Definition demo_dir (path : string) : visit :=
  {| visit_path := path; visit_info := {| IsDir := true |}; visit_err := None |}.

(** The walk of a directory with a manifest, two digest markers and a
    subdirectory whose name looks like a marker. *)
Definition demo_fs : list visit :=
  [demo_dir "foo@v1.2.3";
   demo_file "foo@v1.2.3/crd.yaml";
   demo_file "foo@v1.2.3/sha256:aaaa";
   demo_file "foo@v1.2.3/crossplane.yaml";
   demo_dir "foo@v1.2.3/sha256:nested";
   demo_file "foo@v1.2.3/sha256:bbbb"].

(** The same directory without digest markers. *)
Definition demo_fs_unmarked : list visit :=
  [demo_dir "foo@v1.2.3";
   demo_file "foo@v1.2.3/crd.yaml";
   demo_file "foo@v1.2.3/crossplane.yaml"].

(** Five source dependencies: provider only, configuration only, both,
    neither, and the first one again. *)
Definition demo_deps : list meta_Dependency :=
  [{| Provider := Some "xpkg.upbound.io/acme/provider-a";
      Configuration := None; dep_Version := ">=v1.0.0" |};
   {| Provider := None;
      Configuration := Some "xpkg.upbound.io/acme/config-b";
      dep_Version := "v2.1.0" |};
   {| Provider := Some "xpkg.upbound.io/acme/provider-a";
      Configuration := Some "xpkg.upbound.io/acme/config-b";
      dep_Version := "v3" |};
   {| Provider := None; Configuration := None; dep_Version := "v4" |};
   {| Provider := Some "xpkg.upbound.io/acme/provider-a";
      Configuration := None; dep_Version := ">=v1.0.0" |}].

Definition demo_co : Collaborators := demo_collaborators demo_deps.

(** A decoded package with the given meta objects and one v1 definition. *)
Definition demo_decoded (metas : list runtime_Object) : parser_Package :=
  {| GetMeta := metas;
     GetObjects :=
       [demo_object "CustomResourceDefinition"
          (v1ext_CRD (demo_v1_crd [demo_v1_version "v1" "{}"]))] |}.

(** Two v1 definitions of the same group and kind that both declare a
    version [v1]. *)
Definition demo_colliding : list runtime_Object :=
  [demo_object "CustomResourceDefinition"
     (v1ext_CRD (demo_v1_crd [demo_v1_version "v1" "first";
                              demo_v1_version "v2" "other"]));
   demo_object "CustomResourceDefinition"
     (v1ext_CRD (demo_v1_crd [demo_v1_version "v1" "second"]))].

(** A v1 definition whose second version has no schema. *)
Definition demo_v1_crd_nil_schema : v1ext_CustomResourceDefinition :=
  demo_v1_crd [demo_v1_version "v1" "{}";
               demo_v1_version_without_schema "v2";
               demo_v1_version "v3" "{}"].

(** The package a run returned, or [fallback] when it returned none. *)
Definition returned (o : outcome ParsedPackage) (fallback : ParsedPackage)
  : ParsedPackage :=
  match o with Ok pkg => pkg | _ => fallback end.

(** A marshaler whose parser finds one Provider meta object and one v1
    definition in every stream. *)
Definition demo_provider_marshaler : Marshaler :=
  demo_marshaler (demo_decoded [demo_provider_meta]).

(** A v1beta1 definition like [demo_legacy_crd] without the top-level
    validation. *)
Definition demo_legacy_crd_per_version (names : list string)
  : v1beta1ext_CustomResourceDefinition :=
  {| Spec :=
       {| legacy_Group := "example.org";
          legacy_Names := {| names_Kind := "XWidget" |};
          legacy_Version := "";
          legacy_Validation := None;
          legacy_Versions :=
            (fun n => {| Name := n;
                         Schema := Some {| OpenAPIV3Schema := Some ("own-" +:+ n) |} |})
              <$> names |} |}.

Definition demo_xrd_version (name raw : string)
  : DefinitionVersion CompositeResourceValidation :=
  {| Name := name; Schema := Some {| OpenAPIV3Schema_Raw := raw |} |}.

(** A composite resource definition of kind [XThing] in group
    [example.org] with the given versions. *)
Definition demo_xrd_versions
    (versions : list (DefinitionVersion CompositeResourceValidation))
  : xpv1ext_CompositeResourceDefinition :=
  {| Spec := {| spec_Group := "example.org";
                spec_Names := {| names_Kind := "XThing" |};
                spec_Versions := versions |} |}.

(** A v1 definition of the same group and kind. *)
Definition demo_xthing_crd
    (versions : list (DefinitionVersion (CustomResourceValidation string)))
  : v1ext_CustomResourceDefinition :=
  {| Spec := {| spec_Group := "example.org";
                spec_Names := {| names_Kind := "XThing" |};
                spec_Versions := versions |} |}.

(** A walk that meets an error at its fourth visit, after a digest
    marker. *)
Definition demo_fs_failing : list visit :=
  [demo_dir "foo@v1.2.3";
   demo_file "foo@v1.2.3/crd.yaml";
   demo_file "foo@v1.2.3/sha256:aaaa";
   {| visit_path := "foo@v1.2.3/locked"; visit_info := {| IsDir := true |};
      visit_err := Some (External "open foo@v1.2.3/locked: permission denied") |};
   demo_file "foo@v1.2.3/crossplane.yaml"].

(** A package as [parse] returns it for a meta object that is no package
    description. *)
Definition demo_parsed_unknown_meta (objs : list runtime_Object)
  : ParsedPackage :=
  {| MetaObj := demo_unknown; Objs := objs; PType := ProviderPackageType;
     Deps := []; GVKtoV := ∅; DepName := ""; Reg := ""; SHA := ""; Ver := "" |}.

(** Collaborators that can fail: a definition without a group does not
    convert, the schema text ["bad"] does not compile, ["unconvertible"]
    fails the first conversion of a v1 schema and ["unsupported"] the
    second, a linter rejects a package without body objects, the image
    [""] has no digest and the image ["sha256:empty"] has no manifest
    stream. *)
Definition demo_strict_co : Collaborators :=
  {| Convert_v1beta1_CustomResourceDefinition :=
       fun c : v1beta1ext_CustomResourceDefinition =>
         if String.eqb (legacy_Group (Spec c)) EmptyString
         then inl (External "group is required") else inr c;
     validation_schema :=
       fun val : option (CustomResourceValidation string) =>
         if String.eqb (default EmptyString (val ≫= OpenAPIV3Schema)) "bad"
         then inl (External "schema does not compile")
         else inr (default EmptyString (val ≫= OpenAPIV3Schema));
     Convert_v1_JSONSchemaProps :=
       fun props : string =>
         if String.eqb props "unconvertible"
         then inl (External "conversion failed") else inr props;
     ConvertJSONSchemaPropsWithPostProcess :=
       fun props : string =>
         if String.eqb props "unsupported"
         then inl (External "post-processing failed") else inr props;
     json_Unmarshal := demo_json_Unmarshal;
     TryConvertToPkg := demo_TryConvertToPkg demo_deps;
     GetDependencies := fun pkg : list meta_Dependency => pkg;
     Lint := fun _ pkg =>
       match GetObjects pkg with
       | [] => Some (External "package has no objects")
       | _ => None
       end;
     Walk := fun (fs : list visit) _ => fs;
     FsReadCloser := fun _ _ (paths : list string) => paths;
     Digest := fun i : string =>
       if String.eqb i EmptyString then inl (External "no digest") else inr i;
     OpenStreamFile := fun i : string =>
       if String.eqb i "sha256:empty" then inl (External "file not found")
       else inr [] |}.

(** A v1beta1 definition with the given group and top-level schema and
    one version [v1] with a schema of its own. *)
Definition demo_legacy_crd_with (group top : string)
  : v1beta1ext_CustomResourceDefinition :=
  {| Spec :=
       {| legacy_Group := group;
          legacy_Names := {| names_Kind := "XWidget" |};
          legacy_Version := EmptyString;
          legacy_Validation := Some {| OpenAPIV3Schema := Some top |};
          legacy_Versions :=
            [{| Name := "v1";
                Schema := Some {| OpenAPIV3Schema := Some "own-v1" |} |}] |} |}.

(** A marshaler whose parser fails on every stream. *)
Definition demo_failing_marshaler : Marshaler :=
  {| p := fun _ => inl (External "yaml: line 3: mapping values are not allowed") |}.

(** A decoded package with a Configuration meta object and no body
    objects. *)
Definition demo_decoded_empty : parser_Package :=
  {| GetMeta := [demo_configuration_meta]; GetObjects := [] |}.

End DemoInputs.

(** ** Vocabulary of the statements *)

(** [strings.IndexByte s c >= 0]. *)
Fixpoint has_byte (s : string) (c : ascii) : bool :=
  match s with
  | EmptyString => false
  | String b rest => Ascii.eqb b c || has_byte rest c
  end.

(** A path split by its one "@" into what stands before it and what
    stands after it; either part may be empty. *)
Definition directory_at_version (path dir ver : string) : Prop :=
  path = dir +:+ "@" +:+ ver /\
  has_byte dir "@" = false /\ has_byte ver "@" = false.

Section Vocabulary.
Context `{Ty : Opaque} `{Co : @Collaborators Ty}.

(** The package [parse] returns for a meta object and a package type. *)
Definition parsed_as (pkg : parser_Package) (meta : runtime_Object)
    (pkgType : PackageType) : ParsedPackage :=
  {| MetaObj := meta; Objs := GetObjects pkg; PType := pkgType;
     Deps := []; GVKtoV := ∅; DepName := ""; Reg := ""; SHA := ""; Ver := "" |}.

(** A visited file (not a directory) whose base name begins with
    "sha256:". *)
Definition is_digest_marker (vi : visit) : bool :=
  negb (IsDir (visit_info vi)) &&
  strings_HasPrefix (filepath_Base (visit_path vi)) "sha256:".

(** The visited files that are not digest markers, in walk order. *)
Definition manifest_paths (visits : list visit) : list string :=
  visit_path <$>
    filter (fun vi => IsDir (visit_info vi) = false /\ is_digest_marker vi = false)
           visits.

(** The base name of the last digest marker visited, or the empty
    string. *)
Definition last_marker_name (visits : list visit) : option string :=
  last ((fun vi => filepath_Base (visit_path vi)) <$>
          filter (fun vi => is_digest_marker vi = true) visits).

Definition captured_digest (visits : list visit) : string :=
  default "" (last_marker_name visits).

(** The validator map after the writes of a trace. *)
Definition apply_event (m : gmap GroupVersionKind SchemaValidator) (e : event)
  : gmap GroupVersionKind SchemaValidator :=
  match e with
  | Stored k sv => <[k := sv]> m
  | _ => m
  end.

Definition replay (t : list event) (m : gmap GroupVersionKind SchemaValidator)
  : gmap GroupVersionKind SchemaValidator :=
  foldl apply_event m t.



(** The compilations of a trace. *)
Definition is_compile (e : event) : bool :=
  match e with
  | CompileInternal _ | CompileV1 _ => true
  | _ => false
  end.

Definition compilations (t : list event) : list event :=
  filter (fun e => is_compile e = true) t.





(** A computation that writes the validator map only by logged writes:
    the map it leaves is the map it found, replayed over what it added to
    the trace. *)
Definition journaled {A} (c : M A) : Prop :=
  forall s, exists t,
    trace (c s).2 = (trace s ++ t)%list /\ acc (c s).2 = replay t (acc s).

(** A computation that never reads the validator map: started on another
    map, it has the same outcome and leaves the same store up to the
    map. *)
Definition acc_blind {A} (c : M A) : Prop :=
  forall s m, exists m', c (set_acc m s) = ((c s).1, set_acc m' (c s).2).

(** A version of a v1 CustomResourceDefinition whose two schema pointers
    are set. *)
Definition has_schema
    (v : DefinitionVersion (CustomResourceValidation JSONSchemaProps_v1)) : Prop :=
  exists val props, Schema v = Some val /\ OpenAPIV3Schema val = Some props.

(** A version whose schema pointer, or the pointer inside it, is nil. *)
Definition lacks_schema
    (v : DefinitionVersion (CustomResourceValidation JSONSchemaProps_v1)) : Prop :=
  Schema v = None \/ exists val, Schema v = Some val /\ OpenAPIV3Schema val = None.

(** A version whose schema the two converters accept. *)
Definition compiles
    (v : DefinitionVersion (CustomResourceValidation JSONSchemaProps_v1)) : Prop :=
  exists val props out sch,
    Schema v = Some val /\ OpenAPIV3Schema val = Some props /\
    Convert_v1_JSONSchemaProps props = inr out /\
    ConvertJSONSchemaPropsWithPostProcess out = inr sch.

(** The body of the loop of [validatorsFromV1CRD]. *)
Definition v1_version_step (c : v1ext_CustomResourceDefinition)
    (v : DefinitionVersion (CustomResourceValidation JSONSchemaProps_v1))
  : M unit :=
  match Schema v with
  | None => panic
  | Some val =>
      match OpenAPIV3Schema val with
      | None => panic
      | Some props =>
          let* sv := newV1SchemaValidator props in
          store_validator
            (gvk (spec_Group (Spec c)) (Name v) (names_Kind (spec_Names (Spec c))))
            sv
      end
  end.

End Vocabulary.

Section CoverageVocabulary.
Context `{Ty : Opaque} `{Co : @Collaborators Ty}.

(** The linter and the package type [parse] chooses for a meta object. *)
Definition linter_for (meta : runtime_Object) : linter :=
  if bool_decide (ObjectKind meta = ConfigurationKind)
  then ConfigurationLinter else ProviderLinter.

Definition type_for (meta : runtime_Object) : PackageType :=
  if bool_decide (ObjectKind meta = ConfigurationKind)
  then ConfigurationPackageType else ProviderPackageType.

(** An object of one of the four types [finalizePkg] knows. *)
Definition known_type (o : runtime_Object) : Prop :=
  forall go_type, dynamic o <> other_type go_type.

(** The key a version of a v1 definition or of a composite resource
    definition is registered under. *)
Definition version_key {S : Type} (spec : CurrentSpec S) (v : DefinitionVersion S)
  : GroupVersionKind :=
  gvk (spec_Group spec) (Name v) (names_Kind (spec_Names spec)).

(** A version of a v1 definition whose schema compiles to [sch]. *)
Definition compiles_to
    (v : DefinitionVersion (CustomResourceValidation JSONSchemaProps_v1))
    (sch : spec_Schema) : Prop :=
  exists val props out,
    Schema v = Some val /\ OpenAPIV3Schema val = Some props /\
    Convert_v1_JSONSchemaProps props = inr out /\
    ConvertJSONSchemaPropsWithPostProcess out = inr sch.

(** A version of a composite resource definition whose raw schema bytes
    decode to the schema the version [cv] of a v1 definition carries under
    the same name. *)
Definition decodes_to (xv : DefinitionVersion CompositeResourceValidation)
    (cv : DefinitionVersion (CustomResourceValidation JSONSchemaProps_v1)) : Prop :=
  Name xv = Name cv /\
  exists val props,
    Schema xv = Some val /\
    json_Unmarshal (OpenAPIV3Schema_Raw val) = inr props /\
    Schema cv = Some {| OpenAPIV3Schema := Some props |}.

(** A version of a composite resource definition that decodes and
    compiles. *)
Definition xrd_compiles (xv : DefinitionVersion CompositeResourceValidation) : Prop :=
  exists val props out sch,
    Schema xv = Some val /\
    json_Unmarshal (OpenAPIV3Schema_Raw val) = inr props /\
    Convert_v1_JSONSchemaProps props = inr out /\
    ConvertJSONSchemaPropsWithPostProcess out = inr sch.

(** The body of the loops of [validatorsFromV1Beta1XRD] and
    [validatorsFromV1XRD]. *)
Definition xrd_version_step (x : xpv1ext_CompositeResourceDefinition)
    (v : DefinitionVersion CompositeResourceValidation) : M unit :=
  match Schema v with
  | None => panic
  | Some val =>
      let* props := lift (json_Unmarshal (OpenAPIV3Schema_Raw val)) in
      let* sv := newV1SchemaValidator props in
      store_validator
        (gvk (spec_Group (Spec x)) (Name v) (names_Kind (spec_Names (Spec x))))
        sv
  end.

(** A schema of a v1 definition that [newV1SchemaValidator] refuses with
    [err]: either of its two conversions fails. *)
Definition refused_with (props : JSONSchemaProps_v1) (err : error) : Prop :=
  Convert_v1_JSONSchemaProps props = inl err \/
  exists out,
    Convert_v1_JSONSchemaProps props = inr out /\
    ConvertJSONSchemaPropsWithPostProcess out = inl err.



(** A package with other body objects. *)
Definition with_objects (pkg : ParsedPackage) (objs : list runtime_Object)
  : ParsedPackage :=
  {| MetaObj := MetaObj pkg; Objs := objs; PType := PType pkg;
     Deps := Deps pkg; GVKtoV := GVKtoV pkg; DepName := DepName pkg;
     Reg := Reg pkg; SHA := SHA pkg; Ver := Ver pkg |}.

End CoverageVocabulary.

Ltac run_monad :=
  unfold bind, ret, fail, panic, emit, modify, gets, lift in *; simpl in *.

(** * Theorems *)

(** ** The derived package name *)

Example derivePkgName_dockerhub :
  derivePkgName "index.docker.io" "myrepo" = "myrepo".
Proof. reflexivity. Qed.

Example derivePkgName_upbound :
  derivePkgName "xpkg.upbound.io" "myrepo" = "xpkg.upbound.io/myrepo".
Proof. reflexivity. Qed.

(** C8.  For every registry and repository path, the derived package name
    is the repository path when the registry is the default public registry
    host "index.docker.io", and the registry, a slash and the repository
    path for every other registry. *)
Theorem derivePkgName_by_registry (registry repo : string) :
  (registry = "index.docker.io" -> derivePkgName registry repo = repo) /\
  (registry <> "index.docker.io" ->
   derivePkgName registry repo = registry +:+ "/" +:+ repo).
Proof.
  unfold derivePkgName, dockerhub.
  split; intros Hreg.
  - rewrite bool_decide_eq_false_2; [reflexivity|].
    intros Hne. apply Hne, Hreg.
  - rewrite bool_decide_eq_true_2; [reflexivity|assumption].
Qed.

(** ** Dependency extraction *)

Lemma length_fill_deps (ds : list meta_Dependency) (i : nat) (out : list Dependency) :
  length (fill_deps i ds out) = length out.
Proof.
  revert i out. induction ds as [|d rest IH]; intros i out; simpl.
  - reflexivity.
  - rewrite IH. apply length_insert.
Qed.

(** The loop never touches an index below the one it starts at. *)
Lemma fill_deps_lookup_below (ds : list meta_Dependency) (i j : nat)
    (out : list Dependency) :
  j < i -> fill_deps i ds out !! j = out !! j.
Proof.
  revert i out. induction ds as [|d rest IH]; intros i out Hlt; simpl.
  - reflexivity.
  - rewrite IH by lia. apply list_lookup_insert_ne. lia.
Qed.

(** The element at distance [k] from the start index is written at that
    distance in the output. *)
Lemma fill_deps_lookup_written (ds : list meta_Dependency) (i k : nat)
    (out : list Dependency) (d : meta_Dependency) :
  ds !! k = Some d -> i + k < length out ->
  fill_deps i ds out !! (i + k) = Some (convertToV1beta1 d).
Proof.
  revert i k out. induction ds as [|d0 rest IH]; intros i k out Hk Hlen.
  - discriminate.
  - destruct k as [|k]; simpl in *.
    + injection Hk as ->. rewrite Nat.add_0_r in *.
      rewrite fill_deps_lookup_below by lia.
      apply list_lookup_insert_eq. assumption.
    + replace (i + S k) with (S i + k) by lia.
      apply IH; [assumption|]. rewrite length_insert. lia.
Qed.

Lemma fill_deps_fmap (ds : list meta_Dependency) :
  fill_deps 0 ds (replicate (length ds) zero_Dependency) = convertToV1beta1 <$> ds.
Proof.
  apply (list_eq_same_length _ _ (length ds)).
  - by rewrite length_fmap.
  - by rewrite length_fill_deps, length_replicate.
  - intros i x y Hi Hx Hy.
    destruct (lookup_lt_is_Some_2 ds i Hi) as [d Hd].
    rewrite list_lookup_fmap, Hd in Hy. injection Hy as <-.
    pose proof (fill_deps_lookup_written ds 0 i
                  (replicate (length ds) zero_Dependency) d Hd) as Hw.
    simpl in Hw. rewrite Hw in Hx by (rewrite length_replicate; lia).
    congruence.
Qed.

(** What [convertToV1beta1] returns, by the four cases of its input. *)
Lemma convertToV1beta1_cases (d : meta_Dependency) :
  convertToV1beta1 d =
  match Provider d, Configuration d with
  | Some providerRef, None =>
      {| Package := providerRef; Type_ := "Provider"; Constraints := dep_Version d |}
  | None, Some configurationRef =>
      {| Package := configurationRef; Type_ := "Configuration";
         Constraints := dep_Version d |}
  | _, _ => {| Package := ""; Type_ := ""; Constraints := dep_Version d |}
  end.
Proof.
  unfold convertToV1beta1.
  destruct (Provider d), (Configuration d); reflexivity.
Qed.

Section Extraction.
Context `{Ty : Opaque} `{Co : @Collaborators Ty}.

Lemma determineDeps_run (o : runtime_Object) (s : store) :
  determineDeps o s =
  match TryConvertToPkg o with
  | None => (Fail (New errFailedToConvertMetaToPackage), log CallTryConvertToPkg s)
  | Some pkg =>
      (Ok (convertToV1beta1 <$> GetDependencies pkg), log CallTryConvertToPkg s)
  end.
Proof.
  unfold determineDeps, bind, emit.
  destruct (TryConvertToPkg o) as [pkg|]; [|reflexivity].
  unfold ret. by rewrite fill_deps_fmap.
Qed.

(** C2.  When the meta object converts to a package description, the
    extractor returns a list that is as long as the source dependency list
    and whose i-th entry is computed from the i-th source dependency alone
    (same order, nothing merged or dropped): the provider reference with
    type Provider when only it is set, the configuration reference with
    type Configuration when only it is set, and an empty package reference
    with the unset type when both or neither are set; the version
    constraint is copied in every case. *)
Theorem determineDeps_elementwise (o : runtime_Object) (pkg : meta_Pkg) (s : store) :
  TryConvertToPkg o = Some pkg ->
  exists out : list Dependency,
    (determineDeps o s).1 = Ok out /\
    length out = length (GetDependencies pkg) /\
    forall (i : nat) (d : meta_Dependency),
      GetDependencies pkg !! i = Some d ->
      out !! i = Some
        match Provider d, Configuration d with
        | Some providerRef, None =>
            {| Package := providerRef; Type_ := "Provider";
               Constraints := dep_Version d |}
        | None, Some configurationRef =>
            {| Package := configurationRef; Type_ := "Configuration";
               Constraints := dep_Version d |}
        | _, _ => {| Package := ""; Type_ := ""; Constraints := dep_Version d |}
        end.
Proof.
  intros Hpkg. rewrite determineDeps_run, Hpkg.
  exists (convertToV1beta1 <$> GetDependencies pkg).
  split; [reflexivity|]. split; [apply length_fmap|].
  intros i d Hd.
  rewrite list_lookup_fmap, Hd. simpl.
  by rewrite convertToV1beta1_cases.
Qed.

End Extraction.

(** ** Parsing, classifying and linting *)

Section Parsing.
Context `{Ty : Opaque} `{Co : @Collaborators Ty}.

Lemma parse_not_one_meta (r : Marshaler) (reader : ReadCloser)
    (pkg : parser_Package) (s : store) :
  p r reader = inr pkg -> length (GetMeta pkg) <> 1 ->
  parse r reader s = (Fail (New errNotExactlyOneMeta), log CallParse s).
Proof.
  intros Hp Hlen. unfold parse. run_monad. rewrite Hp.
  by rewrite bool_decide_eq_true_2.
Qed.

Lemma parse_one_meta (r : Marshaler) (reader : ReadCloser)
    (pkg : parser_Package) (meta : runtime_Object) (s : store) :
  p r reader = inr pkg -> GetMeta pkg = [meta] ->
  parse r reader s =
  let l := if bool_decide (ObjectKind meta = ConfigurationKind)
           then ConfigurationLinter else ProviderLinter in
  let t := if bool_decide (ObjectKind meta = ConfigurationKind)
           then ConfigurationPackageType else ProviderPackageType in
  (match Lint l pkg with
   | Some err => Fail (Wrap err errLintPackage)
   | None => Ok (parsed_as pkg meta t)
   end, log (CallLint l) (log CallParse s)).
Proof.
  intros Hp Hmeta. unfold parse. run_monad. rewrite Hp, Hmeta. simpl.
  destruct (bool_decide (ObjectKind meta = ConfigurationKind)); simpl;
    unfold NewConfigurationLinter, NewProviderLinter;
    match goal with |- context [Lint ?l pkg] => destruct (Lint l pkg) end;
    reflexivity.
Qed.

(** C4.  For a decoded package with exactly one meta object, [parse] looks
    at nothing but the kind of that object: kind "Configuration" runs the
    Configuration linter and, when it passes, yields the Configuration
    package type; every other kind runs the Provider linter and yields the
    Provider package type. *)
Theorem parse_classifies_by_kind (r : Marshaler) (reader : ReadCloser)
    (pkg : parser_Package) (meta : runtime_Object) (s : store) :
  p r reader = inr pkg ->
  GetMeta pkg = [meta] ->
  let linted (l : linter) (pkgType : PackageType) :=
    parse r reader s =
    (match Lint l pkg with
     | Some err => Fail (Wrap err "failed to lint package")
     | None => Ok (parsed_as pkg meta pkgType)
     end, log (CallLint l) (log CallParse s)) in
  (ObjectKind meta = "Configuration" -> linted ConfigurationLinter "Configuration") /\
  (ObjectKind meta <> "Configuration" -> linted ProviderLinter "Provider").
Proof.
  intros Hp Hmeta linted. subst linted. simpl.
  rewrite (parse_one_meta r reader pkg meta s Hp Hmeta). simpl.
  split; intros Hkind.
  - by rewrite bool_decide_eq_true_2.
  - by rewrite bool_decide_eq_false_2.
Qed.

End Parsing.

(** ** Splitting a path at "@" *)

Lemma strings_Split_no_sep (s : string) (sep : ascii) :
  has_byte s sep = false -> strings_Split s sep = [s].
Proof.
  induction s as [|c rest IH]; simpl; intros Hno.
  - reflexivity.
  - apply orb_false_iff in Hno as [Hc Hrest].
    rewrite Hc, (IH Hrest). reflexivity.
Qed.

Lemma strings_Split_at_sep (dir rest : string) (sep : ascii) :
  has_byte dir sep = false ->
  strings_Split (dir +:+ String sep rest) sep = dir :: strings_Split rest sep.
Proof.
  induction dir as [|c dir IH]; simpl; intros Hno.
  - by rewrite Ascii.eqb_refl.
  - apply orb_false_iff in Hno as [Hc Hdir].
    rewrite Hc, (IH Hdir). reflexivity.
Qed.

(** Every string is either free of the separator, or a separator-free
    first part, the separator, and a rest. *)
Lemma strings_Split_first (s : string) (sep : ascii) :
  (has_byte s sep = false /\ strings_Split s sep = [s]) \/
  (exists first rest,
      s = first +:+ String sep rest /\ has_byte first sep = false /\
      strings_Split s sep = first :: strings_Split rest sep).
Proof.
  induction s as [|c s IH]; simpl.
  - left. done.
  - destruct (Ascii.eqb c sep) eqn:Hc; simpl.
    + right. exists EmptyString, s. apply Ascii.eqb_eq in Hc as ->. done.
    + destruct IH as [[Hno Hsplit]|(first & rest & -> & Hno & Hsplit)].
      * left. by rewrite Hsplit.
      * right. exists (String c first), rest. simpl.
        rewrite Hc, Hsplit. done.
Qed.

Lemma strings_Split_nonempty (s : string) (sep : ascii) :
  strings_Split s sep <> [].
Proof.
  destruct (strings_Split_first s sep) as [[_ ->]|(? & ? & _ & _ & ->)]; done.
Qed.

(** The path check of [FromDir] accepts exactly the paths of the form
    <directory>@<version-tag>, and then the parts are the directory and the
    version tag. *)
Lemma strings_Split_two_parts (path : string) :
  length (strings_Split path "@") = 2 <->
  exists dir ver, directory_at_version path dir ver.
Proof.
  split.
  - intros Hlen.
    destruct (strings_Split_first path "@")
      as [[_ Hsplit]|(dir & rest & -> & Hdir & Hsplit)].
    + rewrite Hsplit in Hlen. discriminate.
    + rewrite Hsplit in Hlen. simpl in Hlen.
      destruct (strings_Split_first rest "@")
        as [[Hrest _]|(? & more & _ & _ & Hsplit')].
      * exists dir, rest. done.
      * rewrite Hsplit' in Hlen. simpl in Hlen.
        pose proof (strings_Split_nonempty more "@").
        destruct (strings_Split more "@"); [done|discriminate].
  - intros (dir & ver & -> & Hdir & Hver).
    change (dir +:+ "@" +:+ ver) with (dir +:+ String "@" ver).
    by rewrite (strings_Split_at_sep dir ver "@" Hdir),
               (strings_Split_no_sep ver "@" Hver).
Qed.

Lemma strings_Split_directory_at_version (path dir ver : string) :
  directory_at_version path dir ver -> strings_Split path "@" = [dir; ver].
Proof.
  intros (-> & Hdir & Hver).
  change (dir +:+ "@" +:+ ver) with (dir +:+ String "@" ver).
  by rewrite (strings_Split_at_sep dir ver "@" Hdir),
             (strings_Split_no_sep ver "@" Hver).
Qed.

Example strings_Split_foo : strings_Split "foo@v1.2.3" "@" = ["foo"; "v1.2.3"].
Proof. reflexivity. Qed.

Example strings_Split_empty : strings_Split "" "@" = [""].
Proof. reflexivity. Qed.

Example filepath_Base_examples :
  filepath_Base "foo@v1.2.3/sha256:bbbb" = "sha256:bbbb" /\
  filepath_Base "a/b/" = "b" /\
  filepath_Base "crossplane.yaml" = "crossplane.yaml" /\
  filepath_Base "" = "." /\
  filepath_Base "//" = "/".
Proof. repeat split. Qed.

(** ** Walking a directory *)

Section Acquiring.
Context `{Ty : Opaque} `{Co : @Collaborators Ty}.

Lemma set_digest_same (s : store) : set_digest (digest s) s = s.
Proof. by destruct s. Qed.

(** What the two filters of [FromDir] do on one visited path. *)
Lemma filtered_run (vi : visit) (s : store) :
  filtered [SkipDirs; skipDigest] (visit_path vi) (visit_info vi) s =
  if IsDir (visit_info vi) then (Ok true, s)
  else if is_digest_marker vi
       then (Ok true, set_digest (filepath_Base (visit_path vi)) s)
       else (Ok false, s).
Proof.
  unfold is_digest_marker, filtered, SkipDirs, skipDigest, digestPrefix.
  run_monad.
  destruct (IsDir (visit_info vi)); simpl; [reflexivity|].
  by destruct (strings_HasPrefix _ _).
Qed.

Lemma walk_run (visits : list visit) (paths : list string) (s : store) :
  Forall (fun vi => visit_err vi = None) visits ->
  walk [SkipDirs; skipDigest] visits paths s =
  (Ok (paths ++ manifest_paths visits)%list,
   set_digest (default (digest s) (last_marker_name visits)) s).
Proof.
  unfold manifest_paths, last_marker_name.
  intros Hok. revert paths s.
  induction Hok as [|vi rest Herr _ IH]; intros paths s.
  - simpl. by rewrite app_nil_r, set_digest_same.
  - cbn [walk]. rewrite Herr. unfold bind at 1. rewrite filtered_run.
    destruct (IsDir (visit_info vi)) eqn:Hdir.
    + rewrite IH.
      rewrite !filter_cons_False; [reflexivity| |].
      * unfold is_digest_marker. rewrite Hdir. simpl. congruence.
      * intros [? _]. congruence.
    + destruct (is_digest_marker vi) eqn:Hmark.
      * rewrite IH. simpl.
        rewrite filter_cons_False by (intros [_ ?]; congruence).
        rewrite filter_cons_True by assumption.
        rewrite fmap_cons, last_cons.
        by destruct (last _).
      * rewrite IH.
        rewrite filter_cons_True by done.
        rewrite filter_cons_False by congruence.
        rewrite fmap_cons. by rewrite <- app_assoc.
Qed.

Lemma NewFsReadCloser_run (fs : afero_Fs) (dir : string) (s : store) :
  Forall (fun vi => visit_err vi = None) (Walk fs dir) ->
  NewFsReadCloser fs dir [SkipDirs; skipDigest] s =
  (Ok (FsReadCloser fs dir (manifest_paths (Walk fs dir))),
   set_digest (default (digest s) (last_marker_name (Walk fs dir)))
              (log (CallWalk dir) s)).
Proof.
  intros Hok. unfold NewFsReadCloser, bind at 1, emit.
  unfold bind. by rewrite (walk_run _ _ _ Hok).
Qed.

(** [finalizePkg] copies its four string arguments into the package. *)
Lemma finalizePkg_identity (reg repo ver dg : string) (pkg out : ParsedPackage)
    (s : store) :
  (finalizePkg reg repo ver dg pkg s).1 = Ok out ->
  DepName out = derivePkgName reg repo /\ Reg out = reg /\
  SHA out = dg /\ Ver out = ver.
Proof.
  unfold finalizePkg, bind.
  destruct (determineDeps (MetaObj pkg) s) as [[deps| |] s1]; [|done..].
  unfold modify at 1.
  destruct (for_range (Objects pkg) build_validators (set_acc ∅ s1))
    as [[[]| |] s2]; [|done..].
  unfold gets, ret. simpl. intros [= <-]. done.
Qed.

(** [parse] writes nothing but the trace. *)
Lemma parse_frame (r : Marshaler) (reader : ReadCloser) (s : store) :
  exists t, (parse r reader s).2 =
            {| acc := acc s; digest := digest s; next_addr := next_addr s;
               trace := trace s ++ t |}.
Proof.
  unfold parse. run_monad.
  destruct (p r reader) as [err|decoded]; [by exists [CallParse]|].
  destruct (bool_decide _); [by exists [CallParse]|].
  destruct (GetMeta decoded !! 0) as [meta|]; [|by exists [CallParse]].
  destruct (bool_decide _); simpl;
    match goal with |- context [Lint ?l decoded] => destruct (Lint l decoded) end;
    eexists [CallParse; CallLint _]; unfold log; simpl;
    by rewrite <- app_assoc.
Qed.

(** The first steps of [FromDir] on a well-formed path whose walk meets no
    error. *)
Lemma FromDir_run (r : Marshaler) (fs : afero_Fs) (path reg repo dir ver : string)
    (s : store) :
  directory_at_version path dir ver ->
  Forall (fun vi => visit_err vi = None) (Walk fs path) ->
  FromDir r fs path reg repo s =
  (let* pkg := parse r (FsReadCloser fs path (manifest_paths (Walk fs path))) in
   finalizePkg reg repo ver (captured_digest (Walk fs path)) pkg)
    (log (CallWalk path) (set_digest (captured_digest (Walk fs path)) s)).
Proof.
  intros Hform Hok. unfold FromDir.
  rewrite (strings_Split_directory_at_version _ _ _ Hform). simpl.
  unfold bind at 1, modify at 1.
  unfold bind at 1. rewrite (NewFsReadCloser_run _ _ _ Hok).
  change (set_digest _ (log (CallWalk path) (set_digest "" s)))
    with (log (CallWalk path) (set_digest (captured_digest (Walk fs path)) s)).
  set (s0 := log (CallWalk path) (set_digest (captured_digest (Walk fs path)) s)).
  unfold bind.
  destruct (parse_frame r (FsReadCloser fs path (manifest_paths (Walk fs path))) s0)
    as [t Hframe].
  destruct (parse r _ s0) as [[pkg| |] s1]; [|reflexivity..].
  simpl in Hframe. subst s1. reflexivity.
Qed.

End Acquiring.

(** ** The entry points *)

Section EntryPoints.
Context `{Ty : Opaque} `{Co : @Collaborators Ty}.

Lemma bind_Ok {A B} (m : M A) (k : A -> M B) (s : store) (b : B) :
  (bind m k s).1 = Ok b ->
  exists a s', m s = (Ok a, s') /\ (k a s').1 = Ok b.
Proof.
  unfold bind. destruct (m s) as [[a| |] s']; [|done..].
  intros Hk. by exists a, s'.
Qed.

(** C6 (amended).  [FromDir] checks the path before it does anything else,
    and what it checks is that the path has exactly one "@".  A path that is
    not a directory part and a version part around one "@" fails with the
    invalid-path error and leaves the store as it was: nothing was walked,
    no collaborator was called.  A path of that shape passes the check,
    whatever the two parts are (either may be empty); the rest of the
    pipeline runs with the text after the "@" as the version, and that text
    is the version field of every package the call returns. *)
Theorem FromDir_checks_path (r : Marshaler) (fs : afero_Fs)
    (path reg repo : string) (s : store) :
  ((~ exists dir ver, directory_at_version path dir ver) ->
   FromDir r fs path reg repo s =
   (Fail (New "invalid path provided for package lookup"), s)) /\
  (forall dir ver, directory_at_version path dir ver ->
   FromDir r fs path reg repo s =
   (let* _ := modify (set_digest "") in
    let* reader := NewFsReadCloser fs path [SkipDirs; skipDigest] in
    let* pkg := parse r reader in
    let* digest := gets digest in
    finalizePkg reg repo ver digest pkg) s /\
   forall out, (FromDir r fs path reg repo s).1 = Ok out -> Ver out = ver).
Proof.
  split.
  - intros Hform. unfold FromDir.
    rewrite bool_decide_eq_true_2; [reflexivity|].
    intros Hlen. apply Hform. by apply strings_Split_two_parts.
  - intros dir ver Hform.
    assert (FromDir r fs path reg repo s =
            (let* _ := modify (set_digest "") in
             let* reader := NewFsReadCloser fs path [SkipDirs; skipDigest] in
             let* pkg := parse r reader in
             let* digest := gets digest in
             finalizePkg reg repo ver digest pkg) s) as Hrun.
    { unfold FromDir.
      by rewrite (strings_Split_directory_at_version _ _ _ Hform). }
    split; [exact Hrun|].
    intros out. rewrite Hrun. intros Hout.
    apply bind_Ok in Hout as (? & s1 & _ & Hout).
    apply bind_Ok in Hout as (reader & s2 & _ & Hout).
    apply bind_Ok in Hout as (pkg & s3 & _ & Hout).
    apply bind_Ok in Hout as (dg & s4 & _ & Hout).
    by apply finalizePkg_identity in Hout as (_ & _ & _ & Hver).
Qed.

(** C5.  When the decoded package has no meta object, or more than one,
    the marshal call fails with the not-exactly-one-meta error, whether it
    came through [FromImage] or through [FromDir]; the trace shows that the
    decoder was the last collaborator called: no linter ran, no dependency
    was extracted and no validator was built. *)
Theorem marshal_requires_one_meta (r : Marshaler) (pkg : parser_Package)
    (s : store) :
  length (GetMeta pkg) <> 1 ->
  (forall (reg repo ver : string) (i : v1_Image) (dg : string)
          (pkgYaml : ReadCloser),
     Digest i = inr dg -> OpenStreamFile i = inr pkgYaml ->
     p r pkgYaml = inr pkg ->
     (FromImage r reg repo ver i s).1 =
       Fail (New "not exactly one package meta type") /\
     trace (FromImage r reg repo ver i s).2 =
       (trace s ++ [CallDigest; CallOpenStreamFile; CallParse])%list) /\
  (forall (fs : afero_Fs) (path reg repo dir ver : string),
     directory_at_version path dir ver ->
     Forall (fun vi => visit_err vi = None) (Walk fs path) ->
     p r (FsReadCloser fs path (manifest_paths (Walk fs path))) = inr pkg ->
     (FromDir r fs path reg repo s).1 =
       Fail (New "not exactly one package meta type") /\
     trace (FromDir r fs path reg repo s).2 =
       (trace s ++ [CallWalk path; CallParse])%list).
Proof.
  intros Hmeta. split.
  - intros reg repo ver i dg pkgYaml Hdg Hopen Hp.
    unfold FromImage. run_monad. rewrite Hdg, Hopen.
    rewrite (parse_not_one_meta r pkgYaml pkg _ Hp Hmeta). simpl.
    split; [reflexivity|]. by rewrite <- !app_assoc.
  - intros fs path reg repo dir ver Hform Hwalk Hp.
    rewrite (FromDir_run r fs path reg repo dir ver s Hform Hwalk).
    unfold bind.
    rewrite (parse_not_one_meta r _ pkg _ Hp Hmeta). simpl.
    split; [reflexivity|]. by rewrite <- !app_assoc.
Qed.

(** C10.  In directory mode, when the walk meets no error, the manifest
    stream handed to the parser holds the visited files without those whose
    base name begins with "sha256:", and the digest the package gets is the
    base name of the last such file visited; when there is none the digest
    is the empty string, and the call succeeds whenever parsing and
    finalizing do. *)
Theorem FromDir_digest_marker (r : Marshaler) (fs : afero_Fs)
    (path reg repo dir ver : string) (s : store) :
  directory_at_version path dir ver ->
  Forall (fun vi => visit_err vi = None) (Walk fs path) ->
  let visits := Walk fs path in
  let stream := FsReadCloser fs path (manifest_paths visits) in
  FromDir r fs path reg repo s =
    (let* pkg := parse r stream in
     finalizePkg reg repo ver (captured_digest visits) pkg)
      (log (CallWalk path) (set_digest (captured_digest visits) s)) /\
  (forall file : string,
     file ∈ manifest_paths visits <->
     exists vi, vi ∈ visits /\ visit_path vi = file /\
                IsDir (visit_info vi) = false /\
                strings_HasPrefix (filepath_Base file) "sha256:" = false) /\
  (forall out, (FromDir r fs path reg repo s).1 = Ok out ->
               SHA out = captured_digest visits) /\
  (forall visited vi later,
     visits = (visited ++ vi :: later)%list ->
     IsDir (visit_info vi) = false ->
     strings_HasPrefix (filepath_Base (visit_path vi)) "sha256:" = true ->
     Forall (fun vj => is_digest_marker vj = false) later ->
     captured_digest visits = filepath_Base (visit_path vi)) /\
  (Forall (fun vi => is_digest_marker vi = false) visits ->
   captured_digest visits = "" /\
   forall pkg s1 out s2,
     parse r stream (log (CallWalk path) (set_digest "" s)) = (Ok pkg, s1) ->
     finalizePkg reg repo ver "" pkg s1 = (Ok out, s2) ->
     FromDir r fs path reg repo s = (Ok out, s2)).
Proof.
  intros Hform Hwalk visits stream.
  pose proof (FromDir_run r fs path reg repo dir ver s Hform Hwalk) as Hrun.
  fold visits in Hrun. fold stream in Hrun.
  split; [exact Hrun|]. split; [|split; [|split]].
  - intros file. unfold manifest_paths. rewrite list_elem_of_fmap. split.
    + intros (vi & -> & Hin). apply list_elem_of_filter in Hin as [[Hdir Hmark] Hin].
      exists vi. split_and!; try done.
      unfold is_digest_marker in Hmark. by rewrite Hdir in Hmark.
    + intros (vi & Hin & <- & Hdir & Hpre). exists vi. split; [done|].
      apply list_elem_of_filter. split; [|done].
      unfold is_digest_marker. by rewrite Hdir, Hpre.
  - intros out. rewrite Hrun. intros Hout.
    apply bind_Ok in Hout as (pkg & s1 & _ & Hout).
    by apply finalizePkg_identity in Hout as (_ & _ & Hsha & _).
  - intros visited vi later Hsplit Hdir Hpre Hlater.
    unfold captured_digest, last_marker_name. rewrite Hsplit.
    rewrite filter_app, filter_cons_True
      by (unfold is_digest_marker; by rewrite Hdir, Hpre).
    assert (filter (fun vj => is_digest_marker vj = true) later = []) as ->.
    { clear -Hlater. induction Hlater as [|vj rest Hvj _ IH]; [done|].
      rewrite filter_cons_False by congruence. exact IH. }
    by rewrite fmap_app, fmap_cons, fmap_nil, last_snoc.
  - intros Hnone.
    assert (captured_digest visits = "") as Hempty.
    { unfold captured_digest, last_marker_name.
      assert (filter (fun vj => is_digest_marker vj = true) visits = []) as ->;
        [|done].
      clear -Hnone. induction Hnone as [|vj rest Hvj _ IH]; [done|].
      rewrite filter_cons_False by congruence. exact IH. }
    split; [exact Hempty|].
    intros pkg s1 out s2 Hparse Hfin.
    rewrite Hrun, Hempty. unfold bind. by rewrite Hparse.
Qed.

End EntryPoints.

(** ** The validator map is a journal of its writes *)

Section Journal.
Context `{Ty : Opaque} `{Co : @Collaborators Ty}.

Lemma replay_app (t1 t2 : list event) (m : gmap GroupVersionKind SchemaValidator) :
  replay (t1 ++ t2) m = replay t2 (replay t1 m).
Proof. apply foldl_app. Qed.


Lemma journaled_ret {A} (a : A) : journaled (ret a).
Proof. intros s. exists []. by rewrite app_nil_r. Qed.

Lemma journaled_fail {A} (e : error) : journaled (@fail _ A e).
Proof. intros s. exists []. by rewrite app_nil_r. Qed.

Lemma journaled_panic {A} : journaled (@panic _ A).
Proof. intros s. exists []. by rewrite app_nil_r. Qed.

Lemma journaled_lift {A} (r : error + A) : journaled (lift r).
Proof. destruct r; [apply journaled_fail|apply journaled_ret]. Qed.

Lemma journaled_bind {A B} (m : M A) (k : A -> M B) :
  journaled m -> (forall a, journaled (k a)) -> journaled (bind m k).
Proof.
  intros Hm Hk s. unfold bind.
  destruct (Hm s) as (t1 & Ht1 & Ha1).
  destruct (m s) as [[a| |] s1]; simpl in *; [|by exists t1..].
  destruct (Hk a s1) as (t2 & Ht2 & Ha2).
  exists (t1 ++ t2)%list.
  by rewrite Ht2, Ha2, Ht1, Ha1, replay_app, app_assoc.
Qed.

Lemma journaled_emit (e : event) :
  (forall k sv, e <> Stored k sv) -> journaled (emit e).
Proof.
  intros He s. exists [e]. split; [reflexivity|].
  destruct e; try reflexivity. by destruct (He k sv).
Qed.


Lemma journaled_store_validator (k : GroupVersionKind) (sv : SchemaValidator) :
  journaled (store_validator k sv).
Proof. intros s. by exists [Stored k sv]. Qed.

Lemma journaled_validate_NewSchemaValidator (sch : spec_Schema) :
  journaled (validate_NewSchemaValidator sch).
Proof. intros s. exists []. by rewrite app_nil_r. Qed.

Lemma journaled_validation_NewSchemaValidator
    (val : option (CustomResourceValidation JSONSchemaProps_internal)) :
  journaled (validation_NewSchemaValidator val).
Proof.
  unfold validation_NewSchemaValidator.
  apply journaled_bind; [by apply journaled_emit|]. intros _.
  apply journaled_bind; [apply journaled_lift|]. intros sch.
  apply journaled_validate_NewSchemaValidator.
Qed.

Lemma journaled_newV1SchemaValidator (props : JSONSchemaProps_v1) :
  journaled (newV1SchemaValidator props).
Proof.
  unfold newV1SchemaValidator.
  apply journaled_bind; [by apply journaled_emit|]. intros _.
  apply journaled_bind; [apply journaled_lift|]. intros out.
  apply journaled_bind; [apply journaled_lift|]. intros sch.
  apply journaled_validate_NewSchemaValidator.
Qed.

Create HintDb journal.
#[local] Hint Resolve journaled_ret journaled_fail journaled_panic journaled_lift
  journaled_store_validator journaled_validation_NewSchemaValidator
  journaled_newV1SchemaValidator journaled_validate_NewSchemaValidator : journal.



End Journal.

(** ** The builders never read the validator map *)

Section Blind.
Context `{Ty : Opaque} `{Co : @Collaborators Ty}.

Lemma blind_ret {A} (a : A) : acc_blind (ret a).
Proof. intros s m. by exists m. Qed.

Lemma blind_fail {A} (e : error) : acc_blind (@fail _ A e).
Proof. intros s m. by exists m. Qed.

Lemma blind_panic {A} : acc_blind (@panic _ A).
Proof. intros s m. by exists m. Qed.

Lemma blind_lift {A} (r : error + A) : acc_blind (lift r).
Proof. destruct r; [apply blind_fail|apply blind_ret]. Qed.

Lemma blind_emit (e : event) : acc_blind (emit e).
Proof. intros s m. by exists m. Qed.



Lemma blind_store_validator (k : GroupVersionKind) (sv : SchemaValidator) :
  acc_blind (store_validator k sv).
Proof. intros s m. by exists (<[k := sv]> m). Qed.

Lemma blind_validate_NewSchemaValidator (sch : spec_Schema) :
  acc_blind (validate_NewSchemaValidator sch).
Proof. intros s m. by exists m. Qed.

Create HintDb blind.
#[local] Hint Resolve blind_ret blind_fail blind_panic blind_lift blind_emit
  blind_store_validator blind_validate_NewSchemaValidator : blind.



End Blind.

(** ** The validator-building pass *)

Section Pass.
Context `{Ty : Opaque} `{Co : @Collaborators Ty}.

Lemma for_range_app {A} (l1 l2 : list A) (body : A -> M unit) (s : store) :
  for_range (l1 ++ l2) body s =
  match for_range l1 body s with
  | (Ok _, s1) => for_range l2 body s1
  | (Fail e, s1) => (Fail e, s1)
  | (Panic, s1) => (Panic, s1)
  end.
Proof.
  revert s. induction l1 as [|x rest IH]; intros s; simpl.
  - reflexivity.
  - unfold bind. destruct (body x s) as [[[]| |] s1]; [apply IH|done..].
Qed.

(** [finalizePkg], stage by stage. *)
Lemma finalizePkg_run (reg repo ver dg : string) (pkg : ParsedPackage) (s : store) :
  finalizePkg reg repo ver dg pkg s =
  match TryConvertToPkg (MetaObj pkg) with
  | None =>
      (Fail (New errFailedToConvertMetaToPackage), log CallTryConvertToPkg s)
  | Some mp =>
      match for_range (Objs pkg) build_validators
              (set_acc ∅ (log CallTryConvertToPkg s)) with
      | (Ok _, s1) =>
          (Ok {| MetaObj := MetaObj pkg; Objs := Objs pkg; PType := PType pkg;
                 Deps := convertToV1beta1 <$> GetDependencies mp;
                 GVKtoV := acc s1; DepName := derivePkgName reg repo;
                 Reg := reg; SHA := dg; Ver := ver |}, s1)
      | (Fail e, s1) => (Fail e, s1)
      | (Panic, s1) => (Panic, s1)
      end
  end.
Proof.
  unfold finalizePkg, bind at 1. rewrite determineDeps_run.
  destruct (TryConvertToPkg (MetaObj pkg)) as [mp|]; [|reflexivity].
  unfold bind, modify, gets, ret, Objects. simpl.
  by destruct (for_range _ _ _) as [[[]| |] s1].
Qed.

(** *** Every declared triple is written *)

Lemma newV1SchemaValidator_run (props : JSONSchemaProps_v1) (s : store) :
  newV1SchemaValidator props s =
  match Convert_v1_JSONSchemaProps props with
  | inl err => (Fail err, log (CompileV1 props) s)
  | inr out =>
      match ConvertJSONSchemaPropsWithPostProcess out with
      | inl err => (Fail err, log (CompileV1 props) s)
      | inr sch =>
          (Ok {| addr := next_addr s; schema := sch |},
           bump_addr (log (CompileV1 props) s))
      end
  end.
Proof.
  unfold newV1SchemaValidator, validate_NewSchemaValidator. run_monad.
  destruct (Convert_v1_JSONSchemaProps props) as [err|out]; [done|]. simpl.
  by destruct (ConvertJSONSchemaPropsWithPostProcess out) as [err|sch].
Qed.















End Pass.

(** ** Legacy CustomResourceDefinitions *)

Section Legacy.
Context `{Ty : Opaque} `{Co : @Collaborators Ty}.





(** When the top-level validation does not compile, the builder returns
    the error and registers nothing. *)
Lemma validatorsFromV1Beta1CRD_top_level_fails
    (c : v1beta1ext_CustomResourceDefinition)
    (internal : apiextensions_CustomResourceDefinition)
    (val : CustomResourceValidation JSONSchemaProps_internal)
    (err : error) (s : store) :
  Convert_v1beta1_CustomResourceDefinition c = inr internal ->
  legacy_Validation (Spec internal) = Some val ->
  validation_schema (Some val) = inl err ->
  validatorsFromV1Beta1CRD c s = (Fail err, log (CompileInternal (Some val)) s).
Proof.
  intros Hconv Hval Hsch.
  unfold validatorsFromV1Beta1CRD, bind at 1. rewrite Hconv. simpl.
  rewrite Hval. unfold bind at 1.
  unfold validation_NewSchemaValidator. run_monad. by rewrite Hsch.
Qed.


(** Compiling a version's own schema and registering the validator. *)
Lemma compile_and_store_run
    (val : option (CustomResourceValidation JSONSchemaProps_internal))
    (k : GroupVersionKind) (s : store) :
  (let* sv := validation_NewSchemaValidator val in store_validator k sv) s =
  match validation_schema val with
  | inl err => (Fail err, log (CompileInternal val) s)
  | inr sch =>
      (Ok tt,
       {| acc := <[k := {| addr := next_addr s; schema := sch |}]> (acc s);
          digest := digest s; next_addr := S (next_addr s);
          trace := trace s ++ [CompileInternal val;
                               Stored k {| addr := next_addr s; schema := sch |}] |})
  end.
Proof.
  unfold validation_NewSchemaValidator, validate_NewSchemaValidator,
    store_validator.
  run_monad.
  destruct (validation_schema val) as [err|sch]; simpl; [reflexivity|].
  unfold log, set_acc, bump_addr. simpl. by rewrite <- app_assoc.
Qed.

(** Without a top-level validation, every version's own schema is
    compiled, in the order of the versions, when the builder succeeds. *)
Lemma validatorsFromV1Beta1CRD_per_version
    (c : v1beta1ext_CustomResourceDefinition)
    (internal : apiextensions_CustomResourceDefinition) (s s' : store) :
  Convert_v1beta1_CustomResourceDefinition c = inr internal ->
  legacy_Validation (Spec internal) = None ->
  validatorsFromV1Beta1CRD c s = (Ok tt, s') ->
  exists t,
    trace s' = (trace s ++ t)%list /\
    compilations t =
    (fun v => CompileInternal (Schema v)) <$> legacy_Versions (Spec internal).
Proof.
  intros Hconv Hval.
  unfold validatorsFromV1Beta1CRD, bind at 1.
  rewrite Hconv. simpl. rewrite Hval.
  generalize (legacy_Versions (Spec internal)) as versions.
  intros versions. revert s.
  induction versions as [|v rest IH]; intros s.
  - simpl. intros [= <-]. exists []. by rewrite app_nil_r.
  - cbn [for_range]. unfold bind at 1. rewrite compile_and_store_run.
    destruct (validation_schema (Schema v)) as [err|sch]; [done|].
    intros Hok. destruct (IH _ Hok) as (t & Ht & Hcomp). simpl in Ht.
    eexists (CompileInternal (Schema v) :: Stored _ _ :: t).
    split.
    + rewrite Ht. by rewrite <- !app_assoc.
    + unfold compilations in *.
      rewrite filter_cons_True by done.
      rewrite filter_cons_False by done.
      by rewrite Hcomp.
Qed.

End Legacy.

(** ** Unknown objects and nil schemas *)

Section Failures.
Context `{Ty : Opaque} `{Co : @Collaborators Ty}.

(** A loop that reaches a failing element fails; one that does not reach it
    has failed or panicked before. *)
Lemma for_range_unknown (before after : list runtime_Object) (u : runtime_Object)
    (go_type : string) (s : store) :
  dynamic u = other_type go_type ->
  (for_range (before ++ u :: after) build_validators s).1 =
  match (for_range before build_validators s).1 with
  | Ok _ => Fail (New errObjectNotKnownType)
  | Fail e => Fail e
  | Panic => Panic
  end.
Proof.
  intros Hu. rewrite for_range_app.
  destruct (for_range before build_validators s) as [[[]| |] s1]; [|done..].
  simpl. unfold bind, build_validators at 1. by rewrite Hu.
Qed.

(** C3 (amended).  A body-object list that contains an object of none of
    the four recognized types never yields a package, wherever the object
    stands; the failure is the unknown-object-type error whenever the meta
    object converts to a package description and the objects before the
    unknown one are processed without failure, and otherwise it is the
    earlier failure: the meta-conversion error when the meta object does
    not convert, else the error (or the panic) with which the pass over
    the objects before the unknown one ends.  The call ends as the call on
    the objects before the unknown one does, in the same store, except that
    it fails with the unknown-object-type error where that call returns a
    package: the unknown object and the objects after it are never
    processed. *)
Theorem unknown_object_is_terminal (reg repo ver dg : string)
    (pkg : ParsedPackage) (before after : list runtime_Object)
    (u : runtime_Object) (go_type : string) (s : store) :
  Objs pkg = (before ++ u :: after)%list ->
  dynamic u = other_type go_type ->
  is_ok (finalizePkg reg repo ver dg pkg s).1 = false /\
  (forall mp : meta_Pkg,
     TryConvertToPkg (MetaObj pkg) = Some mp ->
     (for_range before build_validators
        (set_acc ∅ (log CallTryConvertToPkg s))).1 = Ok tt ->
     (finalizePkg reg repo ver dg pkg s).1 =
     Fail (New "object is not a known type")) /\
  (finalizePkg reg repo ver dg pkg s).1 =
    match TryConvertToPkg (MetaObj pkg) with
    | None => Fail (New "failed to convert meta to package")
    | Some _ =>
        match (for_range before build_validators
                 (set_acc ∅ (log CallTryConvertToPkg s))).1 with
        | Ok _ => Fail (New "object is not a known type")
        | Fail e => Fail e
        | Panic => Panic
        end
    end /\
  (finalizePkg reg repo ver dg pkg s).1 =
    match (finalizePkg reg repo ver dg (with_objects pkg before) s).1 with
    | Ok _ => Fail (New "object is not a known type")
    | Fail e => Fail e
    | Panic => Panic
    end /\
  (finalizePkg reg repo ver dg pkg s).2 =
    (finalizePkg reg repo ver dg (with_objects pkg before) s).2.
Proof.
  intros Hobjs Hu.
  rewrite !finalizePkg_run, Hobjs. cbn [with_objects MetaObj Objs].
  destruct (TryConvertToPkg (MetaObj pkg)) as [mp|]; [|done].
  assert (forall s1, for_range (u :: after) build_validators s1 =
                     (Fail (New errObjectNotKnownType), s1)) as Hunknown.
  { intros s1. cbn [for_range]. unfold bind, build_validators at 1.
    by rewrite Hu. }
  rewrite for_range_app.
  destruct (for_range before build_validators _) as [[[]| |] s1].
  - rewrite Hunknown. by split_and!.
  - by split_and!.
  - by split_and!.
Qed.

Lemma v1_version_step_compiles (c : v1ext_CustomResourceDefinition)
    (v : DefinitionVersion (CustomResourceValidation JSONSchemaProps_v1))
    (s : store) :
  compiles v -> (v1_version_step c v s).1 = Ok tt.
Proof.
  intros (val & props & out & sch & Hval & Hprops & Hout & Hsch).
  unfold v1_version_step. rewrite Hval, Hprops.
  unfold bind. by rewrite newV1SchemaValidator_run, Hout, Hsch.
Qed.

Lemma v1_version_step_lacks (c : v1ext_CustomResourceDefinition)
    (v : DefinitionVersion (CustomResourceValidation JSONSchemaProps_v1))
    (s : store) :
  lacks_schema v -> (v1_version_step c v s).1 = Panic.
Proof.
  unfold v1_version_step.
  intros [->|(val & -> & ->)]; reflexivity.
Qed.

Lemma v1_version_step_has_schema (c : v1ext_CustomResourceDefinition)
    (v : DefinitionVersion (CustomResourceValidation JSONSchemaProps_v1))
    (s : store) :
  has_schema v -> (v1_version_step c v s).1 <> Panic.
Proof.
  intros (val & props & Hval & Hprops).
  unfold v1_version_step. rewrite Hval, Hprops.
  unfold bind. rewrite newV1SchemaValidator_run.
  destruct (Convert_v1_JSONSchemaProps props) as [err|out]; [done|].
  by destruct (ConvertJSONSchemaPropsWithPostProcess out) as [err|sch].
Qed.

(** C9.  [validatorsFromV1CRD] dereferences the schema pointers of every
    declared version without a check: it panics at the first version whose
    schema pointer (or the pointer inside it) is nil, provided the versions
    before it compile, and so does [finalizePkg] on a package that holds
    such a definition first.  It cannot panic when every version carries
    both pointers. *)
Theorem v1_crd_nil_schema_panics (c : v1ext_CustomResourceDefinition) (s : store) :
  (forall before v after,
     spec_Versions (Spec c) = (before ++ v :: after)%list ->
     Forall compiles before ->
     lacks_schema v ->
     (validatorsFromV1CRD c s).1 = Panic /\
     forall reg repo ver dg pkg o rest mp,
       Objs pkg = o :: rest -> dynamic o = v1ext_CRD c ->
       TryConvertToPkg (MetaObj pkg) = Some mp ->
       (finalizePkg reg repo ver dg pkg s).1 = Panic) /\
  (Forall has_schema (spec_Versions (Spec c)) ->
   (validatorsFromV1CRD c s).1 <> Panic).
Proof.
  change (validatorsFromV1CRD c)
    with (for_range (spec_Versions (Spec c)) (v1_version_step c)).
  split.
  - intros before v after Hsplit Hbefore Hv.
    assert (forall s0,
              (for_range (spec_Versions (Spec c)) (v1_version_step c) s0).1 = Panic)
      as Hpanic.
    { intros s0. rewrite Hsplit, for_range_app. clear Hsplit.
      revert s0. induction Hbefore as [|x l Hx _ IH]; intros s0.
      - simpl. unfold bind.
        pose proof (v1_version_step_lacks c v s0 Hv) as Hstep.
        by destruct (v1_version_step c v s0) as [[[]| |] s1].
      - cbn [for_range]. unfold bind at 1.
        pose proof (v1_version_step_compiles c x s0 Hx) as Hstep.
        destruct (v1_version_step c x s0) as [[[]| |] s1]; [|done..].
        apply IH. }
    split; [apply Hpanic|].
    intros reg repo ver dg pkg o rest mp Hobjs Hdyn Hmeta.
    rewrite finalizePkg_run, Hmeta, Hobjs. cbn [for_range].
    unfold bind, build_validators at 1. rewrite Hdyn.
    change (validatorsFromV1CRD c)
      with (for_range (spec_Versions (Spec c)) (v1_version_step c)).
    specialize (Hpanic (set_acc ∅ (log CallTryConvertToPkg s))).
    by destruct (for_range (spec_Versions (Spec c)) (v1_version_step c) _)
      as [[[]| |] s1].
  - generalize (spec_Versions (Spec c)) as versions.
    intros versions Hall. revert s.
    induction Hall as [|x l Hx _ IH]; intros s; [done|].
    cbn [for_range]. unfold bind.
    pose proof (v1_version_step_has_schema c x s Hx) as Hstep.
    destruct (v1_version_step c x s) as [[[]| |] s1]; [apply IH|done..].
Qed.

End Failures.

(** ** Keys that collide *)

Section Overwrites.
Context `{Ty : Opaque} `{Co : @Collaborators Ty}.








End Overwrites.

(** * Further properties of the marshaler *)

(** ** The derived name and the registry *)

Lemma String_length_append (a b : string) :
  String.length (a +:+ b) = String.length a + String.length b.
Proof. induction a as [|c a IH]; simpl; [reflexivity|]. by rewrite IH. Qed.

(** X1.  The derived package name is the bare repository path for the
    default registry and for no other: a package of another registry never
    gets the name the same repository has on the default one. *)
Theorem derivePkgName_bare_iff_dockerhub (registry repo : string) :
  derivePkgName registry repo = repo <-> registry = "index.docker.io".
Proof.
  unfold derivePkgName, dockerhub. split.
  - intros Hname.
    destruct (decide (registry = "index.docker.io")) as [Heq|Hne]; [exact Heq|].
    rewrite bool_decide_eq_true_2 in Hname by exact Hne.
    apply (f_equal String.length) in Hname.
    rewrite !String_length_append in Hname. simpl in Hname. lia.
  - intros ->. reflexivity.
Qed.

(** ** Constructing a marshaler *)

Section Constructing.
Context `{Ty : Opaque}.

(** X2.  [NewMarshaler] fails with the error of the default parser
    whatever the options are, even when one of them would have replaced
    that parser; without options the marshaler decodes with the default
    parser; and a [WithParser] option that comes last decides the parser,
    whatever the options before it did. *)
Theorem NewMarshaler_last_parser_wins (opts : list MarshalerOption) :
  (forall err, NewMarshaler (inl err) opts = inl err) /\
  (forall default, NewMarshaler (inr default) [] = inr {| p := default |}) /\
  (forall default parser,
     NewMarshaler (inr default) (opts ++ [WithParser parser]) =
     inr {| p := parser |}) /\
  (forall default parsers,
     NewMarshaler (inr default) (WithParser <$> parsers) =
     inr {| p := List.last parsers default |}).
Proof.
  split_and!.
  - reflexivity.
  - reflexivity.
  - intros default parser. unfold NewMarshaler. by rewrite foldl_snoc.
  - intros default parsers. unfold NewMarshaler. f_equal.
    change default with (p {| p := default |}) at 2.
    generalize {| p := default |} as r0.
    induction parsers as [|q rest IH]; intros r0.
    + by destruct r0.
    + rewrite fmap_cons. cbn [foldl]. rewrite IH.
      unfold WithParser. simpl. f_equal.
      clear IH. destruct rest as [|q' rest]; [reflexivity|].
      revert q'. induction rest as [|q'' rest IH]; intros q'; [reflexivity|].
      apply IH.
Qed.

End Constructing.

(** ** What a successful parse tells *)

Section ParseOutcomes.
Context `{Ty : Opaque} `{Co : @Collaborators Ty}.

(** [parse], by the cases of its collaborators' answers. *)
Lemma parse_run (r : Marshaler) (reader : ReadCloser) (s : store) :
  parse r reader s =
  match p r reader with
  | inl err => (Fail (Wrap err errFailedToParsePkgYaml), log CallParse s)
  | inr pkg =>
      match GetMeta pkg with
      | [meta] =>
          (match Lint (linter_for meta) pkg with
           | Some err => Fail (Wrap err errLintPackage)
           | None => Ok (parsed_as pkg meta (type_for meta))
           end, log (CallLint (linter_for meta)) (log CallParse s))
      | _ => (Fail (New errNotExactlyOneMeta), log CallParse s)
      end
  end.
Proof.
  destruct (p r reader) as [err|pkg] eqn:Hp.
  - unfold parse. run_monad. by rewrite Hp.
  - destruct (GetMeta pkg) as [|meta [|meta' rest]] eqn:Hmeta.
    + apply (parse_not_one_meta r reader pkg s Hp). by rewrite Hmeta.
    + apply (parse_one_meta r reader pkg meta s Hp Hmeta).
    + apply (parse_not_one_meta r reader pkg s Hp). by rewrite Hmeta.
Qed.

(** X3.  When the decoder fails, [parse] returns the decoder's error
    wrapped as a package-yaml failure and stops there: no linter runs.
    When the chosen linter rejects the package, [parse] returns the
    linter's error wrapped as a lint failure, and no package. *)
Theorem parse_wraps_collaborator_errors (r : Marshaler) (reader : ReadCloser)
    (s : store) :
  (forall err,
     p r reader = inl err ->
     parse r reader s =
     (Fail (Wrap err "failed to parse package yaml"), log CallParse s)) /\
  (forall pkg meta err,
     p r reader = inr pkg -> GetMeta pkg = [meta] ->
     Lint (linter_for meta) pkg = Some err ->
     parse r reader s =
     (Fail (Wrap err "failed to lint package"),
      log (CallLint (linter_for meta)) (log CallParse s))).
Proof.
  split.
  - intros err Hp. by rewrite parse_run, Hp.
  - intros pkg meta err Hp Hmeta Hlint. by rewrite parse_run, Hp, Hmeta, Hlint.
Qed.

(** What [parse] returned, when it returned a package. *)
Lemma parse_Ok (r : Marshaler) (reader : ReadCloser) (s s' : store)
    (out : ParsedPackage) :
  parse r reader s = (Ok out, s') ->
  exists pkg meta,
    p r reader = inr pkg /\ GetMeta pkg = [meta] /\
    Lint (linter_for meta) pkg = None /\
    out = parsed_as pkg meta (type_for meta) /\
    s' = log (CallLint (linter_for meta)) (log CallParse s).
Proof.
  rewrite parse_run.
  destruct (p r reader) as [err|pkg] eqn:Hp; [done|].
  destruct (GetMeta pkg) as [|meta [|meta' rest]] eqn:Hmeta; [done| |done].
  destruct (Lint (linter_for meta) pkg) as [err|] eqn:Hlint; [done|].
  intros [= <- <-]. by exists pkg, meta.
Qed.

(** X4.  A package that [parse] returns comes from a decoded package with
    exactly one meta object that the linter chosen for that object's kind
    accepted; it carries that meta object and the decoded body objects
    unchanged, its type is Configuration exactly when the meta kind is
    "Configuration" and Provider otherwise, and it has no dependencies, no
    validators and no identity yet. *)
Theorem parse_success_inversion (r : Marshaler) (reader : ReadCloser)
    (s s' : store) (out : ParsedPackage) :
  parse r reader s = (Ok out, s') ->
  exists pkg meta,
    p r reader = inr pkg /\ GetMeta pkg = [meta] /\
    Lint (linter_for meta) pkg = None /\
    MetaObj out = meta /\ Objs out = GetObjects pkg /\
    (PType out = "Configuration" <-> ObjectKind meta = "Configuration") /\
    (PType out = "Provider" <-> ObjectKind meta <> "Configuration") /\
    Deps out = [] /\ GVKtoV out = ∅ /\
    DepName out = "" /\ Reg out = "" /\ SHA out = "" /\ Ver out = "" /\
    s' = log (CallLint (linter_for meta)) (log CallParse s).
Proof.
  intros Hrun.
  apply parse_Ok in Hrun as (pkg & meta & Hp & Hmeta & Hlint & -> & ->).
  exists pkg, meta.
  assert (type_for meta = "Configuration" <-> ObjectKind meta = "Configuration")
    as Hconf.
  { unfold type_for, ConfigurationKind.
    destruct (bool_decide (ObjectKind meta = "Configuration")) eqn:Hkind.
    - apply bool_decide_eq_true in Hkind. by split.
    - apply bool_decide_eq_false in Hkind. split; [discriminate|done]. }
  assert (type_for meta = "Provider" <-> ObjectKind meta <> "Configuration")
    as Hprov.
  { unfold type_for, ConfigurationKind.
    destruct (bool_decide (ObjectKind meta = "Configuration")) eqn:Hkind.
    - apply bool_decide_eq_true in Hkind. split; [discriminate|done].
    - apply bool_decide_eq_false in Hkind. by split. }
  by split_and!.
Qed.

End ParseOutcomes.

(** ** What finalizing needs and keeps *)

Section Finalizing.
Context `{Ty : Opaque} `{Co : @Collaborators Ty}.

(** A loop of builders that returns has met known types only. *)
Lemma for_range_ok_known (objs : list runtime_Object) (s : store) :
  (for_range objs build_validators s).1 = Ok tt -> Forall known_type objs.
Proof.
  revert s. induction objs as [|o rest IH]; intros s; [constructor|].
  cbn [for_range]. unfold bind.
  destruct (build_validators o s) as [[[]| |] s1] eqn:Hstep; [|done..].
  intros Hrest. constructor; [|by apply (IH s1)].
  intros go_type Hdyn. unfold build_validators in Hstep.
  by rewrite Hdyn in Hstep.
Qed.

(** X5.  Dependency extraction comes first: when the meta object does not
    convert to a package description, [finalizePkg] fails with the
    meta-conversion error whatever the body objects are, and looks at none
    of them: nothing is compiled and nothing is registered. *)
Theorem finalizePkg_requires_package_meta (reg repo ver dg : string)
    (pkg : ParsedPackage) (s : store) :
  TryConvertToPkg (MetaObj pkg) = None ->
  (finalizePkg reg repo ver dg pkg s).1 =
    Fail (New "failed to convert meta to package") /\
  trace (finalizePkg reg repo ver dg pkg s).2 =
    (trace s ++ [CallTryConvertToPkg])%list /\
  acc (finalizePkg reg repo ver dg pkg s).2 = acc s.
Proof.
  intros Hmeta. by rewrite finalizePkg_run, Hmeta.
Qed.

(** What [finalizePkg] returned, when it returned a package. *)
Lemma finalizePkg_Ok (reg repo ver dg : string) (pkg out : ParsedPackage)
    (s s' : store) :
  finalizePkg reg repo ver dg pkg s = (Ok out, s') ->
  exists mp,
    TryConvertToPkg (MetaObj pkg) = Some mp /\
    Forall known_type (Objs pkg) /\
    out = {| MetaObj := MetaObj pkg; Objs := Objs pkg; PType := PType pkg;
             Deps := convertToV1beta1 <$> GetDependencies mp;
             GVKtoV := acc s'; DepName := derivePkgName reg repo;
             Reg := reg; SHA := dg; Ver := ver |}.
Proof.
  rewrite finalizePkg_run.
  destruct (TryConvertToPkg (MetaObj pkg)) as [mp|]; [|done].
  destruct (for_range (Objs pkg) build_validators _) as [[[]| |] s1] eqn:Hloop;
    [|done..].
  intros [= <- <-]. exists mp. split_and!; try reflexivity.
  eapply for_range_ok_known. by rewrite Hloop.
Qed.

(** X6.  A package that [finalizePkg] returns is the package it was given
    with the rest filled in: the meta object, the body objects and the
    package type are unchanged; the dependencies are the converted
    dependencies of the meta object, which therefore converts to a package
    description; every body object has one of the four known types; the
    index is the validator map the pass built; and the name, registry,
    digest and version are the derived name and the three arguments. *)
Theorem finalizePkg_success_inversion (reg repo ver dg : string)
    (pkg out : ParsedPackage) (s s' : store) :
  finalizePkg reg repo ver dg pkg s = (Ok out, s') ->
  exists mp,
    TryConvertToPkg (MetaObj pkg) = Some mp /\
    Deps out = convertToV1beta1 <$> GetDependencies mp /\
    MetaObj out = MetaObj pkg /\ Objs out = Objs pkg /\ PType out = PType pkg /\
    Forall known_type (Objs pkg) /\
    GVKtoV out = acc s' /\
    DepName out = derivePkgName reg repo /\
    Reg out = reg /\ SHA out = dg /\ Ver out = ver.
Proof.
  intros Hrun. apply finalizePkg_Ok in Hrun as (mp & Hmeta & Hknown & ->).
  by exists mp.
Qed.

End Finalizing.

(** ** Marshaling an image *)

Section Image.
Context `{Ty : Opaque} `{Co : @Collaborators Ty}.

(** X7.  [FromImage] asks the image for its digest first and opens the
    manifest stream second.  A digest failure is returned wrapped as a
    digest failure and the stream is never opened; a failure to open the
    stream is returned wrapped as a stream failure and the decoder is never
    called. *)
Theorem FromImage_acquisition_failures (r : Marshaler) (reg repo ver : string)
    (i : v1_Image) (s : store) :
  (forall err,
     Digest i = inl err ->
     FromImage r reg repo ver i s =
     (Fail (Wrap err "failed to pull digest from image"), log CallDigest s)) /\
  (forall dg err,
     Digest i = inr dg -> OpenStreamFile i = inl err ->
     FromImage r reg repo ver i s =
     (Fail (Wrap err "failed to open package stream file"),
      log CallOpenStreamFile (log CallDigest s))).
Proof.
  split.
  - intros err Hdg. unfold FromImage. run_monad. by rewrite Hdg.
  - intros dg err Hdg Hopen. unfold FromImage. run_monad.
    by rewrite Hdg, Hopen.
Qed.

(** X8.  A package that [FromImage] returns is pinned to the image: its
    digest field is the digest the image reported, its version and registry
    are the arguments, its name is derived from registry and repository,
    and its meta object, body objects and type are those of the one-meta
    package the decoder read from the image's manifest stream. *)
Theorem FromImage_success_inversion (r : Marshaler) (reg repo ver : string)
    (i : v1_Image) (s : store) (out : ParsedPackage) :
  (FromImage r reg repo ver i s).1 = Ok out ->
  exists dg pkgYaml pkg meta,
    Digest i = inr dg /\ OpenStreamFile i = inr pkgYaml /\
    p r pkgYaml = inr pkg /\ GetMeta pkg = [meta] /\
    SHA out = dg /\ Ver out = ver /\ Reg out = reg /\
    DepName out = derivePkgName reg repo /\
    MetaObj out = meta /\ Objs out = GetObjects pkg /\
    PType out = type_for meta.
Proof.
  unfold FromImage, bind at 1, emit at 1.
  destruct (Digest i) as [err|dg]; [done|].
  unfold bind at 1, emit at 1.
  destruct (OpenStreamFile i) as [err|pkgYaml]; [done|].
  intros Hout. apply bind_Ok in Hout as (parsed & s1 & Hparse & Hfin).
  apply parse_Ok in Hparse as (pkg & meta & Hp & Hmeta & _ & -> & ->).
  destruct (finalizePkg reg repo ver dg _ _) as [o s2] eqn:Hrun.
  simpl in Hfin. subst o.
  apply finalizePkg_Ok in Hrun as (mp & _ & _ & ->).
  by exists dg, pkgYaml, pkg, meta.
Qed.

End Image.

(** ** One validator per version *)

Section PerVersion.
Context `{Ty : Opaque} `{Co : @Collaborators Ty}.

(** A loop whose body, at the i-th element, allocates one validator for
    the i-th schema of a list and registers it under the element's key:
    keys of no element are untouched, and the key of an element that no
    later element shares holds the validator allocated for it. *)
Lemma for_range_registers {A} (l : list A) (schs : list spec_Schema)
    (key : A -> GroupVersionKind) (body : A -> M unit) :
  length l = length schs ->
  (forall i v sch, l !! i = Some v -> schs !! i = Some sch ->
     forall s, exists s1,
       body v s = (Ok tt, s1) /\
       acc s1 = <[key v := {| addr := next_addr s; schema := sch |}]> (acc s) /\
       next_addr s1 = S (next_addr s)) ->
  forall s, exists s',
    for_range l body s = (Ok tt, s') /\
    next_addr s' = next_addr s + length l /\
    (forall k, k ∉ key <$> l -> acc s' !! k = acc s !! k) /\
    (forall i v sch,
       l !! i = Some v -> schs !! i = Some sch ->
       (forall j v', l !! j = Some v' -> i < j -> key v' <> key v) ->
       acc s' !! key v = Some {| addr := next_addr s + i; schema := sch |}).
Proof.
  revert schs. induction l as [|x rest IH]; intros schs Hlen Hbody s.
  - exists s. split_and!; [reflexivity|simpl; lia|done|done].
  - destruct schs as [|sch0 schs]; [discriminate|].
    injection Hlen as Hlen.
    destruct (Hbody 0 x sch0 eq_refl eq_refl s) as (s1 & Hstep & Hacc1 & Hnext1).
    destruct (IH schs Hlen (fun i => Hbody (S i)) s1)
      as (s' & Hloop & Hnext & Hframe & Hheld).
    exists s'. cbn [for_range]. unfold bind. rewrite Hstep.
    split_and!.
    + exact Hloop.
    + rewrite Hnext, Hnext1. simpl. lia.
    + intros k Hk. rewrite fmap_cons in Hk.
      apply not_elem_of_cons in Hk as [Hne Hk].
      rewrite (Hframe k Hk), Hacc1. by rewrite lookup_insert_ne.
    + intros i v sch Hv Hsch Hlater.
      destruct i as [|i]; simpl in Hv, Hsch.
      * injection Hv as <-. injection Hsch as <-.
        rewrite Hframe, Hacc1, lookup_insert_eq, Nat.add_0_r; [reflexivity|].
        intros (v' & Hkey & Hin)%list_elem_of_fmap.
        apply list_elem_of_lookup in Hin as [j Hj].
        apply (Hlater (S j) v'); [exact Hj|lia|by symmetry].
      * rewrite (Hheld i v sch Hv Hsch), Hnext1.
        -- f_equal. f_equal. lia.
        -- intros j v' Hj Hij. apply (Hlater (S j) v'); [exact Hj|lia].
Qed.

(** X9.  A legacy definition that cannot be converted, or whose top-level
    schema does not compile, registers nothing: the builder returns the
    error as it is, the validator map is untouched, and it does not fall
    back on the per-version schemas. *)
Theorem legacy_crd_failures_register_nothing
    (c : v1beta1ext_CustomResourceDefinition) (s : store) :
  (forall err,
     Convert_v1beta1_CustomResourceDefinition c = inl err ->
     validatorsFromV1Beta1CRD c s = (Fail err, s)) /\
  (forall internal val err,
     Convert_v1beta1_CustomResourceDefinition c = inr internal ->
     legacy_Validation (Spec internal) = Some val ->
     validation_schema (Some val) = inl err ->
     (validatorsFromV1Beta1CRD c s).1 = Fail err /\
     acc (validatorsFromV1Beta1CRD c s).2 = acc s /\
     trace (validatorsFromV1Beta1CRD c s).2 =
       (trace s ++ [CompileInternal (Some val)])%list).
Proof.
  split.
  - intros err Hconv. unfold validatorsFromV1Beta1CRD, bind. by rewrite Hconv.
  - intros internal val err Hconv Hval Hsch.
    by rewrite (validatorsFromV1Beta1CRD_top_level_fails c internal val err s
                  Hconv Hval Hsch).
Qed.

(** X10.  A legacy definition without a top-level schema gets one
    validator per declared version, compiled from that version's own
    schema (which may be nil): when every version's schema compiles, the
    builder succeeds, the i-th version's validator is the i-th allocated,
    and every version's key holds the validator of the last version
    declared under that name. *)
Theorem legacy_crd_per_version_validators
    (c : v1beta1ext_CustomResourceDefinition)
    (internal : apiextensions_CustomResourceDefinition)
    (schs : list spec_Schema) (s : store) :
  Convert_v1beta1_CustomResourceDefinition c = inr internal ->
  legacy_Validation (Spec internal) = None ->
  Forall2 (fun v sch => validation_schema (Schema v) = inr sch)
          (legacy_Versions (Spec internal)) schs ->
  exists s',
    validatorsFromV1Beta1CRD c s = (Ok tt, s') /\
    next_addr s' = next_addr s + length (legacy_Versions (Spec internal)) /\
    forall i v sch,
      legacy_Versions (Spec internal) !! i = Some v -> schs !! i = Some sch ->
      (forall j v', legacy_Versions (Spec internal) !! j = Some v' -> i < j ->
                    Name v' <> Name v) ->
      acc s' !! gvk (legacy_Group (Spec internal)) (Name v)
                    (names_Kind (legacy_Names (Spec internal))) =
      Some {| addr := next_addr s + i; schema := sch |}.
Proof.
  intros Hconv Hval Hschs.
  unfold validatorsFromV1Beta1CRD, bind at 1. rewrite Hconv. simpl.
  rewrite Hval.
  destruct (for_range_registers (legacy_Versions (Spec internal)) schs
              (fun v => gvk (legacy_Group (Spec internal)) (Name v)
                            (names_Kind (legacy_Names (Spec internal))))
              (fun v => let* sv := validation_NewSchemaValidator (Schema v) in
                        store_validator
                          (gvk (legacy_Group (Spec internal)) (Name v)
                               (names_Kind (legacy_Names (Spec internal)))) sv)
              (Forall2_length _ _ _ Hschs)) with (s := s)
    as (s' & Hloop & Hnext & _ & Hheld).
  - intros i v sch Hv Hsch s0.
    rewrite compile_and_store_run.
    rewrite (Forall2_lookup_lr _ _ _ _ _ _ Hschs Hv Hsch).
    by eexists.
  - exists s'. split_and!; [exact Hloop|exact Hnext|].
    intros i v sch Hv Hsch Hlater. apply (Hheld i v sch Hv Hsch).
    intros j v' Hj Hij [= Hname]. by apply (Hlater j v' Hj Hij).
Qed.

(** The step of [validatorsFromV1CRD] on a version that compiles. *)
Lemma v1_version_step_compiles_to (c : v1ext_CustomResourceDefinition)
    (v : DefinitionVersion (CustomResourceValidation JSONSchemaProps_v1))
    (sch : spec_Schema) (s : store) :
  compiles_to v sch ->
  exists s1,
    v1_version_step c v s = (Ok tt, s1) /\
    acc s1 = <[version_key (Spec c) v := {| addr := next_addr s; schema := sch |}]>
               (acc s) /\
    next_addr s1 = S (next_addr s).
Proof.
  intros (val & props & out & Hval & Hprops & Hout & Hsch).
  unfold v1_version_step. rewrite Hval, Hprops.
  unfold bind. rewrite newV1SchemaValidator_run, Hout, Hsch.
  by eexists.
Qed.

(** X11.  A v1 definition gets one validator per declared version,
    compiled from that version's own schema: when every version's schema
    compiles, the builder succeeds, the i-th version's validator is the
    i-th allocated (so no two versions share a validator), keys of other
    definitions are untouched, and every version's key holds the validator
    of the last version declared under that name. *)
Theorem v1_crd_per_version_validators (c : v1ext_CustomResourceDefinition)
    (schs : list spec_Schema) (s : store) :
  Forall2 compiles_to (spec_Versions (Spec c)) schs ->
  exists s',
    validatorsFromV1CRD c s = (Ok tt, s') /\
    next_addr s' = next_addr s + length (spec_Versions (Spec c)) /\
    (forall k, k ∉ version_key (Spec c) <$> spec_Versions (Spec c) ->
               acc s' !! k = acc s !! k) /\
    forall i v sch,
      spec_Versions (Spec c) !! i = Some v -> schs !! i = Some sch ->
      (forall j v', spec_Versions (Spec c) !! j = Some v' -> i < j ->
                    Name v' <> Name v) ->
      acc s' !! gvk (spec_Group (Spec c)) (Name v) (names_Kind (spec_Names (Spec c))) =
      Some {| addr := next_addr s + i; schema := sch |}.
Proof.
  intros Hschs.
  change (validatorsFromV1CRD c)
    with (for_range (spec_Versions (Spec c)) (v1_version_step c)).
  destruct (for_range_registers (spec_Versions (Spec c)) schs
              (version_key (Spec c)) (v1_version_step c)
              (Forall2_length _ _ _ Hschs)) with (s := s)
    as (s' & Hloop & Hnext & Hframe & Hheld).
  - intros i v sch Hv Hsch s0.
    apply v1_version_step_compiles_to.
    exact (Forall2_lookup_lr _ _ _ _ _ _ Hschs Hv Hsch).
  - exists s'. split_and!; [exact Hloop|exact Hnext|exact Hframe|].
    intros i v sch Hv Hsch Hlater. apply (Hheld i v sch Hv Hsch).
    intros j v' Hj Hij [= Hname]. by apply (Hlater j v' Hj Hij).
Qed.

(** X17.  A version of a v1 definition whose schema either conversion
    of [newV1SchemaValidator] refuses ends the builder with the
    conversion's own error, unwrapped, once the versions before it are
    through: one validator was allocated for each of those and none for
    the failing version or the ones after it, and [finalizePkg] returns
    that error for a package that holds the definition first. *)
Theorem v1_crd_refused_schema_is_terminal (c : v1ext_CustomResourceDefinition)
    (before after : list (DefinitionVersion (CustomResourceValidation JSONSchemaProps_v1)))
    (v : DefinitionVersion (CustomResourceValidation JSONSchemaProps_v1))
    (val : CustomResourceValidation JSONSchemaProps_v1)
    (props : JSONSchemaProps_v1) (schs : list spec_Schema) (err : error)
    (s : store) :
  spec_Versions (Spec c) = (before ++ v :: after)%list ->
  Forall2 compiles_to before schs ->
  Schema v = Some val -> OpenAPIV3Schema val = Some props ->
  refused_with props err ->
  (validatorsFromV1CRD c s).1 = Fail err /\
  next_addr (validatorsFromV1CRD c s).2 = next_addr s + length before /\
  forall reg repo ver dg pkg o rest mp,
    Objs pkg = o :: rest -> dynamic o = v1ext_CRD c ->
    TryConvertToPkg (MetaObj pkg) = Some mp ->
    (finalizePkg reg repo ver dg pkg s).1 = Fail err.
Proof.
  intros Hsplit Hbefore Hval Hprops Hrefused.
  assert (forall s0, exists s1,
            for_range (spec_Versions (Spec c)) (v1_version_step c) s0 =
              (Fail err, s1) /\
            next_addr s1 = next_addr s0 + length before) as Hfail.
  { intros s0. rewrite Hsplit, for_range_app.
    destruct (for_range_registers before schs (version_key (Spec c))
                (v1_version_step c) (Forall2_length _ _ _ Hbefore)) with (s := s0)
      as (s1 & Hloop & Hnext & _).
    { intros i bv sch Hbv Hsch s2. apply v1_version_step_compiles_to.
      exact (Forall2_lookup_lr _ _ _ _ _ _ Hbefore Hbv Hsch). }
    rewrite Hloop. cbn [for_range]. unfold bind at 1, v1_version_step at 1.
    rewrite Hval, Hprops. unfold bind at 1.
    rewrite newV1SchemaValidator_run.
    destruct Hrefused as [Hconv | (out & Hconv & Hpost)].
    - rewrite Hconv. eexists. split; [reflexivity|exact Hnext].
    - rewrite Hconv, Hpost. eexists. split; [reflexivity|exact Hnext]. }
  change (validatorsFromV1CRD c)
    with (for_range (spec_Versions (Spec c)) (v1_version_step c)).
  destruct (Hfail s) as (s1 & Hrun & Hnext). rewrite Hrun.
  split; [reflexivity|]. split; [exact Hnext|].
  intros reg repo ver dg pkg o rest mp Hobjs Hdyn Hmeta.
  rewrite finalizePkg_run, Hmeta, Hobjs. cbn [for_range].
  unfold bind, build_validators at 1. rewrite Hdyn.
  change (validatorsFromV1CRD c)
    with (for_range (spec_Versions (Spec c)) (v1_version_step c)).
  destruct (Hfail (set_acc ∅ (log CallTryConvertToPkg s))) as (s2 & Hrun2 & _).
  by rewrite Hrun2.
Qed.

End PerVersion.

(** ** Composite resource definitions *)

Section Composite.
Context `{Ty : Opaque} `{Co : @Collaborators Ty}.

(** Two loops whose elements are related pairwise, and whose bodies agree
    on related elements, are the same computation. *)
Lemma for_range_Forall2 {A B} (R : A -> B -> Prop) (l1 : list A) (l2 : list B)
    (body1 : A -> M unit) (body2 : B -> M unit) :
  Forall2 R l1 l2 ->
  (forall x y s, R x y -> body1 x s = body2 y s) ->
  forall s, for_range l1 body1 s = for_range l2 body2 s.
Proof.
  intros Hl Hbody. induction Hl as [|x y l1 l2 Hxy _ IH]; intros s.
  - reflexivity.
  - cbn [for_range]. unfold bind. rewrite (Hbody x y s Hxy).
    by destruct (body2 y s) as [[[]| |] s1].
Qed.

(** X12.  A composite resource definition goes the way of a v1
    definition once its schemas are decoded: when the raw schema bytes of
    every version decode, both composite builders do exactly what
    [validatorsFromV1CRD] does on the definition of the same group and kind
    whose versions carry the decoded schemas under the same names. *)
Theorem xrd_builds_like_decoded_crd
    (x : xpv1ext_CompositeResourceDefinition)
    (c : v1ext_CustomResourceDefinition) (s : store) :
  spec_Group (Spec x) = spec_Group (Spec c) ->
  spec_Names (Spec x) = spec_Names (Spec c) ->
  Forall2 decodes_to (spec_Versions (Spec x)) (spec_Versions (Spec c)) ->
  validatorsFromV1XRD x s = validatorsFromV1CRD c s /\
  validatorsFromV1Beta1XRD x s = validatorsFromV1CRD c s.
Proof.
  intros Hgroup Hnames Hversions.
  assert (forall xv cv s0, decodes_to xv cv ->
            xrd_version_step x xv s0 = v1_version_step c cv s0) as Hstep.
  { intros xv cv s0 (Hname & val & props & Hval & Hdecode & Hcv).
    unfold xrd_version_step, v1_version_step.
    rewrite Hval, Hcv, Hgroup, Hnames, Hname. simpl.
    unfold bind at 1. by rewrite Hdecode. }
  change (validatorsFromV1CRD c)
    with (for_range (spec_Versions (Spec c)) (v1_version_step c)).
  change (validatorsFromV1XRD x)
    with (for_range (spec_Versions (Spec x)) (xrd_version_step x)).
  change (validatorsFromV1Beta1XRD x)
    with (for_range (spec_Versions (Spec x)) (xrd_version_step x)).
  split; apply (for_range_Forall2 decodes_to); try exact Hversions;
    intros xv cv s0 Hxy; by apply Hstep.
Qed.

(** The step of the composite builders on a version that decodes and
    compiles. *)
Lemma xrd_step_compiles (x : xpv1ext_CompositeResourceDefinition)
    (xv : DefinitionVersion CompositeResourceValidation) (s : store) :
  xrd_compiles xv -> exists s1, xrd_version_step x xv s = (Ok tt, s1).
Proof.
  intros (val & props & out & sch & Hval & Hdecode & Hout & Hsch).
  unfold xrd_version_step. rewrite Hval. unfold bind at 1. rewrite Hdecode.
  simpl. unfold bind. rewrite newV1SchemaValidator_run, Hout, Hsch.
  by eexists.
Qed.

(** X13.  A version whose schema bytes do not decode ends a composite
    builder with the decoder's own error, unwrapped, once the versions
    before it are through; the schema is never handed to the compiler, and
    [finalizePkg] returns that error for a package that holds the
    definition first. *)
Theorem xrd_decode_failure_is_terminal
    (x : xpv1ext_CompositeResourceDefinition)
    (before after : list (DefinitionVersion CompositeResourceValidation))
    (xv : DefinitionVersion CompositeResourceValidation)
    (val : CompositeResourceValidation) (err : error) (s : store) :
  spec_Versions (Spec x) = (before ++ xv :: after)%list ->
  Forall xrd_compiles before ->
  Schema xv = Some val ->
  json_Unmarshal (OpenAPIV3Schema_Raw val) = inl err ->
  (validatorsFromV1XRD x s).1 = Fail err /\
  (validatorsFromV1Beta1XRD x s).1 = Fail err /\
  forall reg repo ver dg pkg o rest mp,
    Objs pkg = o :: rest ->
    (dynamic o = xpv1ext_XRD x \/ dynamic o = xpv1beta1ext_XRD x) ->
    TryConvertToPkg (MetaObj pkg) = Some mp ->
    (finalizePkg reg repo ver dg pkg s).1 = Fail err.
Proof.
  intros Hsplit Hbefore Hval Hdecode.
  assert (forall s0,
            (for_range (spec_Versions (Spec x)) (xrd_version_step x) s0).1 =
            Fail err) as Hfail.
  { intros s0. rewrite Hsplit, for_range_app. clear Hsplit. revert s0.
    induction Hbefore as [|v l Hv _ IH]; intros s0.
    - simpl. unfold bind at 1, xrd_version_step at 1.
      rewrite Hval. unfold bind at 1. by rewrite Hdecode.
    - cbn [for_range]. unfold bind at 1.
      destruct (xrd_step_compiles x v s0 Hv) as [s1 Hstep].
      rewrite Hstep. apply IH. }
  change (validatorsFromV1XRD x)
    with (for_range (spec_Versions (Spec x)) (xrd_version_step x)).
  change (validatorsFromV1Beta1XRD x)
    with (for_range (spec_Versions (Spec x)) (xrd_version_step x)).
  split; [apply Hfail|]. split; [apply Hfail|].
  intros reg repo ver dg pkg o rest mp Hobjs Hdyn Hmeta.
  rewrite finalizePkg_run, Hmeta, Hobjs. cbn [for_range].
  unfold bind, build_validators at 1.
  specialize (Hfail (set_acc ∅ (log CallTryConvertToPkg s))).
  destruct Hdyn as [-> | ->].
  - change (validatorsFromV1XRD x)
      with (for_range (spec_Versions (Spec x)) (xrd_version_step x)).
    destruct (for_range (spec_Versions (Spec x)) (xrd_version_step x) _)
      as [[[]| |] s1]; simpl in *; [discriminate| |discriminate].
    by injection Hfail as ->.
  - change (validatorsFromV1Beta1XRD x)
      with (for_range (spec_Versions (Spec x)) (xrd_version_step x)).
    destruct (for_range (spec_Versions (Spec x)) (xrd_version_step x) _)
      as [[[]| |] s1]; simpl in *; [discriminate| |discriminate].
    by injection Hfail as ->.
Qed.

End Composite.

(** ** A walk that fails, and the order of the stages *)

Section Stages.
Context `{Ty : Opaque} `{Co : @Collaborators Ty}.

Lemma walk_app (fns : list FilterFn) (l1 l2 : list visit) (paths : list string)
    (s : store) :
  walk fns (l1 ++ l2) paths s =
  match walk fns l1 paths s with
  | (Ok kept, s1) => walk fns l2 kept s1
  | (Fail e, s1) => (Fail e, s1)
  | (Panic, s1) => (Panic, s1)
  end.
Proof.
  revert paths s. induction l1 as [|vi rest IH]; intros paths s.
  - reflexivity.
  - cbn [app walk]. destruct (visit_err vi) as [err|]; [reflexivity|].
    unfold bind.
    destruct (filtered fns (visit_path vi) (visit_info vi) s) as [[skip| |] s1];
      [apply IH|reflexivity..].
Qed.

(** The walk of [FromDir] writes nothing but the digest. *)
Lemma walk_frame (visits : list visit) (paths : list string) (s : store) :
  exists d, (walk [SkipDirs; skipDigest] visits paths s).2 = set_digest d s.
Proof.
  revert paths s. induction visits as [|vi rest IH]; intros paths s.
  - exists (digest s). simpl. by rewrite set_digest_same.
  - cbn [walk]. destruct (visit_err vi) as [err|].
    + exists (digest s). simpl. by rewrite set_digest_same.
    + unfold bind. rewrite filtered_run.
      destruct (IsDir (visit_info vi)); [apply IH|].
      destruct (is_digest_marker vi); [|apply IH].
      destruct (IH paths (set_digest (filepath_Base (visit_path vi)) s))
        as [d ->].
      by exists d.
Qed.

(** X14.  When the walk of the directory reports an error at a visit,
    [FromDir] returns that very error, unwrapped, and stops: the decoder is
    never called, whatever was visited before and whatever would have come
    after. *)
Theorem FromDir_walk_error (r : Marshaler) (fs : afero_Fs)
    (path reg repo dir ver : string) (before after : list visit) (vi : visit)
    (err : error) (s : store) :
  directory_at_version path dir ver ->
  Walk fs path = (before ++ vi :: after)%list ->
  Forall (fun vj => visit_err vj = None) before ->
  visit_err vi = Some err ->
  (FromDir r fs path reg repo s).1 = Fail err /\
  trace (FromDir r fs path reg repo s).2 = (trace s ++ [CallWalk path])%list.
Proof.
  intros Hform Hwalk Hbefore Herr.
  assert (FromDir r fs path reg repo s =
          (Fail err,
           set_digest (default "" (last_marker_name before))
                      (log (CallWalk path) (set_digest "" s)))) as Hrun.
  { unfold FromDir.
    rewrite (strings_Split_directory_at_version _ _ _ Hform). simpl.
    unfold bind at 1, modify at 1.
    unfold bind at 1, NewFsReadCloser, bind at 1, emit at 1.
    unfold bind at 1.
    rewrite Hwalk, walk_app, (walk_run before _ _ Hbefore).
    cbn [walk]. by rewrite Herr. }
  by rewrite Hrun.
Qed.

Lemma compilations_log (e : event) (s : store) :
  is_compile e = false ->
  compilations (trace (log e s)) = compilations (trace s).
Proof.
  intros He. unfold compilations, log. simpl.
  rewrite filter_app, filter_cons_False by congruence.
  by rewrite filter_nil, app_nil_r.
Qed.

Lemma parse_compiles_nothing (r : Marshaler) (reader : ReadCloser) (s : store) :
  compilations (trace (parse r reader s).2) = compilations (trace s).
Proof.
  rewrite parse_run.
  destruct (p r reader) as [err|pkg]; [by apply compilations_log|].
  destruct (GetMeta pkg) as [|meta [|meta' rest]];
    [by apply compilations_log| |by apply compilations_log].
  cbn [snd]. by rewrite !compilations_log.
Qed.

Lemma finalizePkg_compiles_with_meta (reg repo ver dg : string)
    (pkg : ParsedPackage) (s : store) :
  compilations (trace (finalizePkg reg repo ver dg pkg s).2) <>
    compilations (trace s) ->
  exists mp, TryConvertToPkg (MetaObj pkg) = Some mp.
Proof.
  rewrite finalizePkg_run.
  destruct (TryConvertToPkg (MetaObj pkg)) as [mp|]; [by exists mp|].
  intros Hne. destruct Hne. by apply compilations_log.
Qed.

(** X15.  The stages run in order, and the compiler comes last.  If a
    marshal call compiled any schema at all, then the stream was acquired
    and decoded, the package had exactly one meta object, the linter
    chosen for it accepted the package, and the meta object converted to a
    package description: no schema of a package that fails to decode, to
    lint or to convert is ever compiled. *)
Theorem compile_only_after_lint (r : Marshaler) (reg repo : string) (s : store) :
  (forall ver i,
     compilations (trace (FromImage r reg repo ver i s).2) <>
       compilations (trace s) ->
     exists dg pkgYaml pkg meta mp,
       Digest i = inr dg /\ OpenStreamFile i = inr pkgYaml /\
       p r pkgYaml = inr pkg /\ GetMeta pkg = [meta] /\
       Lint (linter_for meta) pkg = None /\
       TryConvertToPkg meta = Some mp) /\
  (forall fs path,
     compilations (trace (FromDir r fs path reg repo s).2) <>
       compilations (trace s) ->
     exists reader pkg meta mp,
       length (strings_Split path "@") = 2 /\
       (NewFsReadCloser fs path [SkipDirs; skipDigest] (set_digest "" s)).1 =
         Ok reader /\
       p r reader = inr pkg /\ GetMeta pkg = [meta] /\
       Lint (linter_for meta) pkg = None /\
       TryConvertToPkg meta = Some mp).
Proof.
  split.
  - intros ver i. unfold FromImage, bind at 1, emit at 1.
    destruct (Digest i) as [err|dg].
    { intros Hne. destruct Hne. unfold fail; cbn [snd]. by apply compilations_log. }
    unfold bind at 1, emit at 1.
    destruct (OpenStreamFile i) as [err|pkgYaml].
    { intros Hne. destruct Hne. unfold fail; cbn [snd]. by rewrite !compilations_log. }
    unfold bind.
    pose proof (parse_compiles_nothing r pkgYaml
                  (log CallOpenStreamFile (log CallDigest s))) as Hparse.
    destruct (parse r pkgYaml _) as [[parsed| |] s1] eqn:Hrun.
    + apply parse_Ok in Hrun as (pkg & meta & Hp & Hmeta & Hlint & -> & Hs1).
      intros Hne.
      destruct (finalizePkg_compiles_with_meta reg repo ver dg
                  (parsed_as pkg meta (type_for meta)) s1) as [mp Hmp].
      { cbn [snd] in Hparse. rewrite Hparse, !compilations_log by done. exact Hne. }
      by exists dg, pkgYaml, pkg, meta, mp.
    + intros Hne. destruct Hne. unfold fail, panic, ret in *; cbn [snd] in *.
      by rewrite Hparse, !compilations_log.
    + intros Hne. destruct Hne. unfold fail, panic, ret in *; cbn [snd] in *.
      by rewrite Hparse, !compilations_log.
  - intros fs path. unfold FromDir.
    destruct (bool_decide (length (strings_Split path "@") ≠ 2)) eqn:Hlen.
    { intros Hne. destruct Hne. by unfold fail. }
    apply bool_decide_eq_false in Hlen.
    assert (length (strings_Split path "@") = 2) as Hparts
      by (destruct (decide (length (strings_Split path "@") = 2)); done).
    unfold bind at 1, modify at 1. unfold bind at 1.
    destruct (NewFsReadCloser fs path [SkipDirs; skipDigest] (set_digest "" s))
      as [o s1] eqn:Hread.
    assert (compilations (trace s1) = compilations (trace s)) as Hwalked.
    { revert Hread. unfold NewFsReadCloser, bind at 1, emit at 1.
      unfold bind.
      destruct (walk_frame (Walk fs path) []
                  (log (CallWalk path) (set_digest "" s))) as [d Hd].
      destruct (walk _ _ _ _) as [[paths| |] s2]; simpl in Hd; subst s2;
        intros [= _ <-]; cbn [snd]; by apply (compilations_log (CallWalk path) s). }
    destruct o as [reader| |];
      [|intros Hne; by destruct Hne..].
    unfold bind at 1.
    pose proof (parse_compiles_nothing r reader s1) as Hparse.
    destruct (parse r reader s1) as [[parsed| |] s2] eqn:Hrun.
    + apply parse_Ok in Hrun as (pkg & meta & Hp & Hmeta & Hlint & -> & Hs2).
      unfold bind, gets.
      destruct (strings_Split path "@" !! 1) as [ver|] eqn:Hver.
      * intros Hne.
        destruct (finalizePkg_compiles_with_meta reg repo ver (digest s2)
                    (parsed_as pkg meta (type_for meta)) s2) as [mp Hmp].
        { cbn [snd] in Hparse. rewrite Hparse, Hwalked. exact Hne. }
        by exists reader, pkg, meta, mp.
      * intros Hne. destruct Hne. unfold fail, panic, ret in *; cbn [snd] in *. by rewrite Hparse.
    + intros Hne. destruct Hne. unfold fail, panic, ret in *; cbn [snd] in *. by rewrite Hparse.
    + intros Hne. destruct Hne. unfold fail, panic, ret in *; cbn [snd] in *. by rewrite Hparse.
Qed.

(** A walk that returns met no error. *)
Lemma walk_Ok_no_error (fns : list FilterFn) (visits : list visit)
    (paths kept : list string) (s : store) :
  (walk fns visits paths s).1 = Ok kept ->
  Forall (fun vi => visit_err vi = None) visits.
Proof.
  revert paths s. induction visits as [|vi rest IH]; intros paths s;
    [constructor|].
  cbn [walk]. destruct (visit_err vi) as [err|] eqn:Herr; [done|].
  unfold bind.
  destruct (filtered fns (visit_path vi) (visit_info vi) s) as [[skip| |] s1];
    [|done..].
  intros Hrest. constructor; [exact Herr|]. by eapply IH.
Qed.

(** X16.  A package that [FromDir] returns tells that the path had exactly
    one "@", that the walk of the directory met no error, that the decoder
    read one meta object from the files that are not digest markers and
    that the linter accepted the package; its version is the text after the
    "@", its digest is the base name of the last digest marker visited (or
    empty), its registry is the argument and its name is derived from
    registry and repository. *)
Theorem FromDir_success_inversion (r : Marshaler) (fs : afero_Fs)
    (path reg repo : string) (s : store) (out : ParsedPackage) :
  (FromDir r fs path reg repo s).1 = Ok out ->
  exists dir ver pkg meta,
    directory_at_version path dir ver /\
    Forall (fun vi => visit_err vi = None) (Walk fs path) /\
    p r (FsReadCloser fs path (manifest_paths (Walk fs path))) = inr pkg /\
    GetMeta pkg = [meta] /\
    Lint (linter_for meta) pkg = None /\
    Ver out = ver /\ SHA out = captured_digest (Walk fs path) /\
    Reg out = reg /\ DepName out = derivePkgName reg repo /\
    MetaObj out = meta /\ Objs out = GetObjects pkg /\
    PType out = type_for meta.
Proof.
  intros Hout.
  destruct (decide (length (strings_Split path "@") = 2)) as [Hlen|Hlen].
  2:{ unfold FromDir in Hout. by rewrite bool_decide_eq_true_2 in Hout. }
  apply strings_Split_two_parts in Hlen as (dir & ver & Hform).
  assert (Forall (fun vi => visit_err vi = None) (Walk fs path)) as Hwalk.
  { revert Hout. unfold FromDir.
    rewrite (strings_Split_directory_at_version _ _ _ Hform). simpl.
    unfold bind at 1, modify at 1.
    unfold bind at 1, NewFsReadCloser, bind at 1, emit at 1.
    unfold bind at 1.
    destruct (walk _ (Walk fs path) [] _) as [[kept| |] s1] eqn:Hrun;
      [|done..].
    intros _. eapply walk_Ok_no_error. by rewrite Hrun. }
  rewrite (FromDir_run r fs path reg repo dir ver s Hform Hwalk) in Hout.
  apply bind_Ok in Hout as (parsed & s1 & Hparse & Hfin).
  apply parse_Ok in Hparse as (pkg & meta & Hp & Hmeta & Hlint & -> & ->).
  destruct (finalizePkg reg repo ver _ _ _) as [o s2] eqn:Hrun.
  simpl in Hfin. subst o.
  apply finalizePkg_Ok in Hrun as (mp & _ & _ & ->).
  by exists dir, ver, pkg, meta.
Qed.

End Stages.

(** * Concrete runs

    The theorems above, applied to explicit inputs with the concrete
    collaborators, and the runs that refute the statements the amended
    theorems replace. *)

Section Runs.
#[local] Existing Instance demo_types.
#[local] Existing Instance demo_co.

(** C2 at five source dependencies, the last a repetition of the first:
    five entries come back, in order, the repetition included. *)
Lemma determineDeps_elementwise_witness :
  (determineDeps demo_provider_meta empty_store).1 =
  Ok [{| Package := "xpkg.upbound.io/acme/provider-a"; Type_ := "Provider";
         Constraints := ">=v1.0.0" |};
      {| Package := "xpkg.upbound.io/acme/config-b"; Type_ := "Configuration";
         Constraints := "v2.1.0" |};
      {| Package := ""; Type_ := ""; Constraints := "v3" |};
      {| Package := ""; Type_ := ""; Constraints := "v4" |};
      {| Package := "xpkg.upbound.io/acme/provider-a"; Type_ := "Provider";
         Constraints := ">=v1.0.0" |}].
Proof.
  assert (TryConvertToPkg demo_provider_meta = Some demo_deps) as Hmeta
    by reflexivity.
  destruct (determineDeps_elementwise demo_provider_meta demo_deps empty_store
              Hmeta) as (out & Hout & Hlen & Hentries).
  rewrite Hout. f_equal.
  apply (list_eq_same_length _ _ 5); [reflexivity|exact Hlen|].
  intros i x y Hi Hx Hy.
  destruct (demo_deps !! i) as [d|] eqn:Hd.
  - rewrite (Hentries i d Hd) in Hx.
    do 5 (destruct i as [|i];
          [simpl in Hd; injection Hd as <-; simpl in Hx, Hy; congruence|]).
    simpl in Hi. lia.
  - apply lookup_ge_None in Hd. simpl in Hd. lia.
Defined.

(** C4 at three packages: a meta object of kind Configuration, one of kind
    Provider, and one of a kind that is neither. *)
Lemma parse_classifies_by_kind_witness :
  (parse (demo_marshaler (demo_decoded [demo_configuration_meta])) [] empty_store).1 =
    Ok (parsed_as (demo_decoded [demo_configuration_meta]) demo_configuration_meta
                  "Configuration") /\
  trace (parse (demo_marshaler (demo_decoded [demo_configuration_meta])) []
               empty_store).2 = [CallParse; CallLint ConfigurationLinter] /\
  (parse demo_provider_marshaler [] empty_store).1 =
    Ok (parsed_as (demo_decoded [demo_provider_meta]) demo_provider_meta "Provider") /\
  (parse (demo_marshaler (demo_decoded [demo_object "Function" (other_type "*v1.Function")]))
         [] empty_store) =
    (Ok (parsed_as (demo_decoded [demo_object "Function" (other_type "*v1.Function")])
                   (demo_object "Function" (other_type "*v1.Function")) "Provider"),
     log (CallLint ProviderLinter) (log CallParse empty_store)).
Proof.
  pose proof (fun meta =>
    parse_classifies_by_kind (demo_marshaler (demo_decoded [meta])) []
      (demo_decoded [meta]) meta empty_store eq_refl eq_refl) as Hkind.
  destruct (Hkind demo_configuration_meta) as [Hconf _].
  destruct (Hkind demo_provider_meta) as [_ Hprov].
  destruct (Hkind (demo_object "Function" (other_type "*v1.Function")))
    as [_ Hother].
  split_and!.
  - by rewrite (Hconf eq_refl).
  - by rewrite (Hconf eq_refl).
  - unfold demo_provider_marshaler. rewrite Hprov; [reflexivity|discriminate].
  - rewrite Hother; [reflexivity|discriminate].
Defined.

(** C5 at a package without a meta object and at one with two. *)
Lemma marshal_requires_one_meta_witness :
  (FromImage (demo_marshaler (demo_decoded [])) "xpkg.upbound.io" "acme/pkg"
             "v0.1.0" "sha256:cafe" empty_store) =
    (Fail (New "not exactly one package meta type"),
     {| acc := ∅; digest := ""; next_addr := 0;
        trace := [CallDigest; CallOpenStreamFile; CallParse] |}) /\
  (FromDir (demo_marshaler (demo_decoded [demo_provider_meta; demo_configuration_meta]))
           demo_fs "foo@v1.2.3" "xpkg.upbound.io" "acme/pkg" empty_store).1 =
    Fail (New "not exactly one package meta type") /\
  trace (FromDir (demo_marshaler (demo_decoded [demo_provider_meta; demo_configuration_meta]))
                 demo_fs "foo@v1.2.3" "xpkg.upbound.io" "acme/pkg" empty_store).2 =
    [CallWalk "foo@v1.2.3"; CallParse].
Proof.
  assert (length (GetMeta (demo_decoded [])) <> 1) as Hnone by (simpl; lia).
  assert (length (GetMeta (demo_decoded [demo_provider_meta; demo_configuration_meta])) <> 1)
    as Htwo by (simpl; lia).
  destruct (marshal_requires_one_meta (demo_marshaler (demo_decoded []))
              (demo_decoded []) empty_store Hnone) as [Himage _].
  destruct (marshal_requires_one_meta
              (demo_marshaler (demo_decoded [demo_provider_meta; demo_configuration_meta]))
              (demo_decoded [demo_provider_meta; demo_configuration_meta])
              empty_store Htwo) as [_ Hdir].
  destruct (Himage "xpkg.upbound.io" "acme/pkg" "v0.1.0" "sha256:cafe"
              "sha256:cafe" [] eq_refl eq_refl eq_refl) as [Hfail Htrace].
  assert (directory_at_version "foo@v1.2.3" "foo" "v1.2.3") as Hform
    by (repeat split).
  assert (Forall (fun vi => visit_err vi = None) (Walk demo_fs "foo@v1.2.3"))
    as Hwalk by (repeat constructor).
  destruct (Hdir demo_fs "foo@v1.2.3" "xpkg.upbound.io" "acme/pkg" "foo" "v1.2.3"
              Hform Hwalk eq_refl) as [Hfail' Htrace'].
  split_and!.
  - reflexivity.
  - exact Hfail'.
  - exact Htrace'.
Defined.

(** C6 refuted as stated: "foo@" names a directory and no version tag, so
    it is not of the form <directory>@<version-tag>, yet it passes the path
    check: the call does not fail with the invalid-path error, it returns a
    package whose version is empty. *)
Lemma path_without_version_tag_is_accepted :
  strings_Split "foo@" "@" = ["foo"; ""] /\
  (FromDir demo_provider_marshaler demo_fs "foo@" "xpkg.upbound.io" "acme/pkg"
           empty_store).1 <>
    Fail (New "invalid path provided for package lookup") /\
  exists out,
    (FromDir demo_provider_marshaler demo_fs "foo@" "xpkg.upbound.io" "acme/pkg"
             empty_store).1 = Ok out /\
    Ver out = "".
Proof.
  assert ((FromDir demo_provider_marshaler demo_fs "foo@" "xpkg.upbound.io"
                   "acme/pkg" empty_store).1 =
          Ok (returned (FromDir demo_provider_marshaler demo_fs "foo@"
                                "xpkg.upbound.io" "acme/pkg" empty_store).1
                       (demo_parsed []))) as Hrun
    by (vm_compute; reflexivity).
  split; [reflexivity|]. split.
  - rewrite Hrun. discriminate.
  - eexists. split; [exact Hrun|]. vm_compute. reflexivity.
Qed.

(** C6 (amended) at three paths: one without "@" and one with two are
    refused with the store untouched; "foo@v1.2.3" is accepted and the
    package carries the version "v1.2.3". *)
Lemma FromDir_checks_path_witness :
  FromDir demo_provider_marshaler demo_fs "foo" "xpkg.upbound.io" "acme/pkg"
          empty_store =
    (Fail (New "invalid path provided for package lookup"), empty_store) /\
  FromDir demo_provider_marshaler demo_fs "foo@v1@v2" "xpkg.upbound.io" "acme/pkg"
          empty_store =
    (Fail (New "invalid path provided for package lookup"), empty_store) /\
  exists out,
    (FromDir demo_provider_marshaler demo_fs "foo@v1.2.3" "xpkg.upbound.io"
             "acme/pkg" empty_store).1 = Ok out /\
    Ver out = "v1.2.3".
Proof.
  pose proof (fun path =>
    FromDir_checks_path demo_provider_marshaler demo_fs path "xpkg.upbound.io"
      "acme/pkg" empty_store) as Hcheck.
  assert (forall path, length (strings_Split path "@") <> 2 ->
                       ~ exists dir ver, directory_at_version path dir ver)
    as Hbad by (intros path Hlen Hform; by apply Hlen, strings_Split_two_parts).
  split_and!.
  - apply (Hcheck "foo"), Hbad. simpl. lia.
  - apply (Hcheck "foo@v1@v2"), Hbad. simpl. lia.
  - destruct (Hcheck "foo@v1.2.3") as [_ Hpass].
    assert (directory_at_version "foo@v1.2.3" "foo" "v1.2.3") as Hform
      by (repeat split).
    destruct (Hpass "foo" "v1.2.3" Hform) as [_ Hver].
    exists (returned (FromDir demo_provider_marshaler demo_fs "foo@v1.2.3"
                              "xpkg.upbound.io" "acme/pkg" empty_store).1
                     (demo_parsed [])).
    assert ((FromDir demo_provider_marshaler demo_fs "foo@v1.2.3" "xpkg.upbound.io"
                     "acme/pkg" empty_store).1 =
            Ok (returned (FromDir demo_provider_marshaler demo_fs "foo@v1.2.3"
                                  "xpkg.upbound.io" "acme/pkg" empty_store).1
                         (demo_parsed []))) as Hrun
      by (vm_compute; reflexivity).
    split; [exact Hrun|]. exact (Hver _ Hrun).
Defined.

(** C10 on a directory with two digest markers and a subdirectory named
    like one, and on the same directory without markers. *)
Lemma FromDir_digest_marker_witness :
  manifest_paths demo_fs = ["foo@v1.2.3/crd.yaml"; "foo@v1.2.3/crossplane.yaml"] /\
  (exists out,
     (FromDir demo_provider_marshaler demo_fs "foo@v1.2.3" "xpkg.upbound.io"
              "acme/pkg" empty_store).1 = Ok out /\
     SHA out = "sha256:bbbb") /\
  (exists out,
     (FromDir demo_provider_marshaler demo_fs_unmarked "foo@v1.2.3"
              "xpkg.upbound.io" "acme/pkg" empty_store).1 = Ok out /\
     SHA out = "").
Proof.
  assert (directory_at_version "foo@v1.2.3" "foo" "v1.2.3") as Hform
    by (repeat split).
  assert (Forall (fun vi => visit_err vi = None) (Walk demo_fs "foo@v1.2.3"))
    as Hwalk by (repeat constructor).
  assert (Forall (fun vi => visit_err vi = None) (Walk demo_fs_unmarked "foo@v1.2.3"))
    as Hwalk' by (repeat constructor).
  destruct (FromDir_digest_marker demo_provider_marshaler demo_fs "foo@v1.2.3"
              "xpkg.upbound.io" "acme/pkg" "foo" "v1.2.3" empty_store Hform Hwalk)
    as (_ & _ & Hsha & Hlast & _).
  destruct (FromDir_digest_marker demo_provider_marshaler demo_fs_unmarked
              "foo@v1.2.3" "xpkg.upbound.io" "acme/pkg" "foo" "v1.2.3" empty_store
              Hform Hwalk')
    as (_ & _ & Hsha' & _ & Hnone).
  split_and!.
  - reflexivity.
  - exists (returned (FromDir demo_provider_marshaler demo_fs "foo@v1.2.3"
                              "xpkg.upbound.io" "acme/pkg" empty_store).1
                     (demo_parsed [])).
    assert ((FromDir demo_provider_marshaler demo_fs "foo@v1.2.3" "xpkg.upbound.io"
                     "acme/pkg" empty_store).1 =
            Ok (returned (FromDir demo_provider_marshaler demo_fs "foo@v1.2.3"
                                  "xpkg.upbound.io" "acme/pkg" empty_store).1
                         (demo_parsed []))) as Hrun
      by (vm_compute; reflexivity).
    split; [exact Hrun|]. rewrite (Hsha _ Hrun).
    apply (Hlast (firstn 5 demo_fs) (demo_file "foo@v1.2.3/sha256:bbbb") []);
      [reflexivity..|constructor].
  - exists (returned (FromDir demo_provider_marshaler demo_fs_unmarked "foo@v1.2.3"
                              "xpkg.upbound.io" "acme/pkg" empty_store).1
                     (demo_parsed [])).
    assert ((FromDir demo_provider_marshaler demo_fs_unmarked "foo@v1.2.3"
                     "xpkg.upbound.io" "acme/pkg" empty_store).1 =
            Ok (returned (FromDir demo_provider_marshaler demo_fs_unmarked
                                  "foo@v1.2.3" "xpkg.upbound.io" "acme/pkg"
                                  empty_store).1
                         (demo_parsed []))) as Hrun
      by (vm_compute; reflexivity).
    split; [exact Hrun|]. rewrite (Hsha' _ Hrun).
    apply Hnone. repeat constructor.
Defined.




(** C3 refuted as stated: an unknown object that follows a composite
    resource definition whose schema bytes are not JSON is never reached;
    the call fails with the decoder's error, not with the
    unknown-object-type error. *)
Lemma earlier_failure_is_reported :
  demo_unknown ∈ [demo_object "CompositeResourceDefinition" (xpv1ext_XRD (demo_xrd "not json"));
                  demo_unknown] /\
  dynamic demo_unknown = other_type "*v1.ConfigMap" /\
  (finalizePkg "xpkg.upbound.io" "acme/pkg" "v0.1.0" ""
     (demo_parsed [demo_object "CompositeResourceDefinition"
                     (xpv1ext_XRD (demo_xrd "not json"));
                   demo_unknown])
     empty_store).1 =
    Fail (External "invalid character looking for beginning of value") /\
  (finalizePkg "xpkg.upbound.io" "acme/pkg" "v0.1.0" ""
     (demo_parsed [demo_object "CompositeResourceDefinition"
                     (xpv1ext_XRD (demo_xrd "not json"));
                   demo_unknown])
     empty_store).1 <>
    Fail (New "object is not a known type").
Proof.
  split; [by apply elem_of_cons; right; apply elem_of_cons; left|].
  split; [reflexivity|].
  assert ((finalizePkg "xpkg.upbound.io" "acme/pkg" "v0.1.0" ""
             (demo_parsed [demo_object "CompositeResourceDefinition"
                             (xpv1ext_XRD (demo_xrd "not json"));
                           demo_unknown])
             empty_store).1 =
          Fail (External "invalid character looking for beginning of value"))
    as Hrun by (vm_compute; reflexivity).
  split; [exact Hrun|]. rewrite Hrun. discriminate.
Qed.

(** C3 (amended) at an unknown object between two definitions that
    compile, and at one that follows a composite resource definition whose
    schema bytes are not JSON. *)
Lemma unknown_object_is_terminal_witness :
  (finalizePkg "xpkg.upbound.io" "acme/pkg" "v0.1.0" ""
     (demo_parsed [demo_object "CustomResourceDefinition"
                     (v1ext_CRD (demo_v1_crd [demo_v1_version "v1" "{}"]));
                   demo_unknown;
                   demo_object "CompositeResourceDefinition"
                     (xpv1ext_XRD (demo_xrd "{}"))])
     empty_store).1 = Fail (New "object is not a known type") /\
  (finalizePkg "xpkg.upbound.io" "acme/pkg" "v0.1.0" ""
     (demo_parsed [demo_object "CompositeResourceDefinition"
                     (xpv1ext_XRD (demo_xrd "not json"));
                   demo_unknown])
     empty_store).1 =
    Fail (External "invalid character looking for beginning of value").
Proof.
  split.
  - destruct (unknown_object_is_terminal "xpkg.upbound.io" "acme/pkg" "v0.1.0" ""
                (demo_parsed [demo_object "CustomResourceDefinition"
                                (v1ext_CRD (demo_v1_crd [demo_v1_version "v1" "{}"]));
                              demo_unknown;
                              demo_object "CompositeResourceDefinition"
                                (xpv1ext_XRD (demo_xrd "{}"))])
                [demo_object "CustomResourceDefinition"
                   (v1ext_CRD (demo_v1_crd [demo_v1_version "v1" "{}"]))]
                [demo_object "CompositeResourceDefinition" (xpv1ext_XRD (demo_xrd "{}"))]
                demo_unknown "*v1.ConfigMap" empty_store eq_refl eq_refl)
      as (_ & Hunknown & _).
    apply (Hunknown demo_deps); [reflexivity|]. vm_compute. reflexivity.
  - destruct (unknown_object_is_terminal "xpkg.upbound.io" "acme/pkg" "v0.1.0" ""
                (demo_parsed [demo_object "CompositeResourceDefinition"
                                (xpv1ext_XRD (demo_xrd "not json"));
                              demo_unknown])
                [demo_object "CompositeResourceDefinition"
                   (xpv1ext_XRD (demo_xrd "not json"))]
                [] demo_unknown "*v1.ConfigMap" empty_store eq_refl eq_refl)
      as (_ & _ & Hearlier & _).
    rewrite Hearlier. reflexivity.
Defined.

(** C9 at a definition whose second version has no schema: the builder
    panics, and so does [finalizePkg] on a package that holds it. *)
Lemma v1_crd_nil_schema_panics_witness :
  (validatorsFromV1CRD demo_v1_crd_nil_schema empty_store).1 = Panic /\
  (finalizePkg "xpkg.upbound.io" "acme/pkg" "v0.1.0" ""
     (demo_parsed [demo_object "CustomResourceDefinition"
                     (v1ext_CRD demo_v1_crd_nil_schema)])
     empty_store).1 = Panic /\
  (validatorsFromV1CRD (demo_v1_crd [demo_v1_version "v1" "{}"]) empty_store).1 <> Panic.
Proof.
  destruct (v1_crd_nil_schema_panics demo_v1_crd_nil_schema empty_store)
    as [Hpanic _].
  destruct (v1_crd_nil_schema_panics (demo_v1_crd [demo_v1_version "v1" "{}"])
              empty_store) as [_ Htotal].
  assert (Forall compiles [demo_v1_version "v1" "{}"]) as Hbefore.
  { constructor; [|constructor].
    exists {| OpenAPIV3Schema := Some "{}" |}, "{}", "{}", "{}". by repeat split. }
  destruct (Hpanic [demo_v1_version "v1" "{}"]
              (demo_v1_version_without_schema "v2")
              [demo_v1_version "v3" "{}"] eq_refl Hbefore (or_introl eq_refl))
    as [Hbuilder Hfinalize].
  split_and!.
  - exact Hbuilder.
  - by apply (Hfinalize _ _ _ _ _
                (demo_object "CustomResourceDefinition"
                   (v1ext_CRD demo_v1_crd_nil_schema)) [] demo_deps).
  - apply Htotal. constructor; [|constructor].
    by exists {| OpenAPIV3Schema := Some "{}" |}, "{}".
Defined.

End Runs.

(** * Concrete runs of the further properties *)

Section FurtherRuns.
#[local] Existing Instance demo_types.
#[local] Existing Instance demo_co.

(** X4 at a stream with one Provider meta object. *)
Lemma parse_success_inversion_witness :
  exists pkg meta,
    p demo_provider_marshaler ["crossplane.yaml"] = inr pkg /\
    GetMeta pkg = [meta] /\
    ObjectKind meta <> "Configuration" /\
    Lint ProviderLinter pkg = None.
Proof.
  assert (parse demo_provider_marshaler ["crossplane.yaml"] empty_store =
          (Ok (parsed_as (demo_decoded [demo_provider_meta]) demo_provider_meta
                         "Provider"),
           log (CallLint ProviderLinter) (log CallParse empty_store))) as Hrun
    by reflexivity.
  destruct (parse_success_inversion _ _ _ _ _ Hrun)
    as (pkg & meta & Hp & Hmeta & Hlint & _ & _ & _ & Hprov & _).
  exists pkg, meta. split_and!; [exact Hp|exact Hmeta|by apply Hprov|].
  injection Hp as <-. by injection Hmeta as <-.
Defined.

(** X5 at a package whose meta object is a ConfigMap and whose body holds
    two definitions. *)
Lemma finalizePkg_requires_package_meta_witness :
  (finalizePkg "xpkg.upbound.io" "acme/pkg" "v0.1.0" "sha256:cafe"
               (demo_parsed_unknown_meta demo_colliding) empty_store).1 =
    Fail (New "failed to convert meta to package") /\
  trace (finalizePkg "xpkg.upbound.io" "acme/pkg" "v0.1.0" "sha256:cafe"
                     (demo_parsed_unknown_meta demo_colliding) empty_store).2 =
    [CallTryConvertToPkg] /\
  acc (finalizePkg "xpkg.upbound.io" "acme/pkg" "v0.1.0" "sha256:cafe"
                   (demo_parsed_unknown_meta demo_colliding) empty_store).2 = ∅.
Proof.
  assert (TryConvertToPkg (MetaObj (demo_parsed_unknown_meta demo_colliding)) = None)
    as Hmeta by reflexivity.
  exact (finalizePkg_requires_package_meta "xpkg.upbound.io" "acme/pkg"
           "v0.1.0" "sha256:cafe" (demo_parsed_unknown_meta demo_colliding)
           empty_store Hmeta).
Defined.

(** X6 at a package with two definitions. *)
Lemma finalizePkg_success_inversion_witness :
  exists out,
    (finalizePkg "xpkg.upbound.io" "acme/pkg" "v0.1.0" "sha256:cafe"
                 (demo_parsed demo_colliding) empty_store).1 = Ok out /\
    length (Deps out) = 5 /\
    DepName out = "xpkg.upbound.io/acme/pkg" /\
    SHA out = "sha256:cafe" /\ Ver out = "v0.1.0" /\
    Forall known_type demo_colliding.
Proof.
  pose (run := finalizePkg "xpkg.upbound.io" "acme/pkg" "v0.1.0" "sha256:cafe"
                           (demo_parsed demo_colliding) empty_store).
  assert (run = (Ok (returned run.1 (demo_parsed [])), run.2)) as Hrun
    by (vm_compute; reflexivity).
  destruct (finalizePkg_success_inversion _ _ _ _ _ _ _ _ Hrun)
    as (mp & Hmeta & Hdeps & _ & _ & _ & Hknown & _ & Hname & _ & Hsha & Hver).
  exists (returned run.1 (demo_parsed [])).
  split_and!; [by rewrite Hrun| |exact Hname|exact Hsha|exact Hver|exact Hknown].
  rewrite Hdeps. injection Hmeta as <-. reflexivity.
Defined.

(** X8 at an image of Docker Hub. *)
Lemma FromImage_success_inversion_witness :
  exists out,
    (FromImage demo_provider_marshaler "index.docker.io" "acme/pkg" "v0.1.0"
               "sha256:cafe" empty_store).1 = Ok out /\
    SHA out = "sha256:cafe" /\ Ver out = "v0.1.0" /\
    Reg out = "index.docker.io" /\ DepName out = "acme/pkg" /\
    MetaObj out = demo_provider_meta.
Proof.
  pose (run := FromImage demo_provider_marshaler "index.docker.io" "acme/pkg"
                         "v0.1.0" "sha256:cafe" empty_store).
  assert (run.1 = Ok (returned run.1 (demo_parsed []))) as Hrun
    by (vm_compute; reflexivity).
  subst run.
  destruct (FromImage_success_inversion demo_provider_marshaler
              "index.docker.io" "acme/pkg" "v0.1.0" "sha256:cafe" empty_store
              _ Hrun)
    as (dg & pkgYaml & pkg & meta & Hdg & _ & Hp & Hmeta & Hsha & Hver & Hreg &
        Hname & Hobj & _).
  eexists.
  split_and!; [exact Hrun| |exact Hver|exact Hreg|exact Hname|].
  - rewrite Hsha. by injection Hdg as <-.
  - rewrite Hobj. injection Hp as <-. by injection Hmeta as <-.
Defined.

(** X10 at a legacy definition with the versions v1, v2 and v1 again. *)
Lemma legacy_crd_per_version_validators_witness :
  exists s',
    validatorsFromV1Beta1CRD (demo_legacy_crd_per_version ["v1"; "v2"; "v1"])
                             empty_store = (Ok tt, s') /\
    next_addr s' = 3 /\
    acc s' !! gvk "example.org" "v2" "XWidget" =
      Some {| addr := 1; schema := "own-v2" |} /\
    acc s' !! gvk "example.org" "v1" "XWidget" =
      Some {| addr := 2; schema := "own-v1" |}.
Proof.
  assert (Forall2 (fun v sch => validation_schema (Schema v) = inr sch)
            (legacy_Versions (Spec (demo_legacy_crd_per_version ["v1"; "v2"; "v1"])))
            ["own-v1"; "own-v2"; "own-v1"]) as Hschs
    by (repeat constructor).
  assert (Convert_v1beta1_CustomResourceDefinition
            (demo_legacy_crd_per_version ["v1"; "v2"; "v1"]) =
          inr (demo_legacy_crd_per_version ["v1"; "v2"; "v1"])) as Hconv
    by reflexivity.
  assert (legacy_Validation (Spec (demo_legacy_crd_per_version ["v1"; "v2"; "v1"])) =
          None) as Hval by reflexivity.
  destruct (legacy_crd_per_version_validators
              (demo_legacy_crd_per_version ["v1"; "v2"; "v1"])
              (demo_legacy_crd_per_version ["v1"; "v2"; "v1"])
              ["own-v1"; "own-v2"; "own-v1"] empty_store Hconv Hval Hschs)
    as (s' & Hrun & Hnext & Hheld).
  exists s'. split_and!; [exact Hrun|exact Hnext| |].
  - apply (Hheld 1 _ _ eq_refl eq_refl).
    intros [|[|[|j]]] v' Hj Hlt; try lia; [by injection Hj as <-|done].
  - apply (Hheld 2 _ _ eq_refl eq_refl).
    intros [|[|[|j]]] v' Hj Hlt; try lia; done.
Defined.

(** X11 at a v1 definition with the versions v1, v2 and v1 again. *)
Lemma v1_crd_per_version_validators_witness :
  exists s',
    validatorsFromV1CRD (demo_v1_crd [demo_v1_version "v1" "first";
                                      demo_v1_version "v2" "other";
                                      demo_v1_version "v1" "second"])
                        empty_store = (Ok tt, s') /\
    next_addr s' = 3 /\
    acc s' !! gvk "example.org" "v1" "XThing" = None /\
    acc s' !! gvk "example.org" "v2" "Widget" =
      Some {| addr := 1; schema := "other" |} /\
    acc s' !! gvk "example.org" "v1" "Widget" =
      Some {| addr := 2; schema := "second" |}.
Proof.
  assert (Forall2 compiles_to
            (spec_Versions (Spec (demo_v1_crd [demo_v1_version "v1" "first";
                                               demo_v1_version "v2" "other";
                                               demo_v1_version "v1" "second"])))
            ["first"; "other"; "second"]) as Hschs.
  { repeat constructor; by eexists _, _, _. }
  destruct (v1_crd_per_version_validators _ _ empty_store Hschs)
    as (s' & Hrun & Hnext & Hframe & Hheld).
  exists s'. split_and!; [exact Hrun|exact Hnext| | |].
  - rewrite Hframe; [reflexivity|].
    apply (bool_decide_unpack _). vm_compute. exact I.
  - apply (Hheld 1 _ _ eq_refl eq_refl).
    intros [|[|[|j]]] v' Hj Hlt; try lia; [by injection Hj as <-|done].
  - apply (Hheld 2 _ _ eq_refl eq_refl).
    intros [|[|[|j]]] v' Hj Hlt; try lia; done.
Defined.

(** X12 at a composite resource definition with two versions. *)
Lemma xrd_builds_like_decoded_crd_witness :
  validatorsFromV1XRD
    (demo_xrd_versions [demo_xrd_version "v1" "{}";
                        demo_xrd_version "v2" "{ properties }"]) empty_store =
  validatorsFromV1CRD
    (demo_xthing_crd [demo_v1_version "v1" "{}";
                      demo_v1_version "v2" "{ properties }"]) empty_store /\
  validatorsFromV1Beta1XRD
    (demo_xrd_versions [demo_xrd_version "v1" "{}";
                        demo_xrd_version "v2" "{ properties }"]) empty_store =
  validatorsFromV1CRD
    (demo_xthing_crd [demo_v1_version "v1" "{}";
                      demo_v1_version "v2" "{ properties }"]) empty_store.
Proof.
  apply xrd_builds_like_decoded_crd; [reflexivity|reflexivity|].
  repeat constructor; by eexists _, _.
Defined.

(** X13 at a composite resource definition whose second version holds
    bytes that are not JSON. *)
Lemma xrd_decode_failure_is_terminal_witness :
  (validatorsFromV1XRD
     (demo_xrd_versions [demo_xrd_version "v1" "{}";
                         demo_xrd_version "v2" "not json";
                         demo_xrd_version "v3" "{}"]) empty_store).1 =
    Fail (External "invalid character looking for beginning of value") /\
  (finalizePkg "xpkg.upbound.io" "acme/pkg" "v0.1.0" "sha256:cafe"
     (demo_parsed
        [demo_object "CompositeResourceDefinition"
           (xpv1beta1ext_XRD
              (demo_xrd_versions [demo_xrd_version "v1" "{}";
                                  demo_xrd_version "v2" "not json";
                                  demo_xrd_version "v3" "{}"]));
         demo_unknown]) empty_store).1 =
    Fail (External "invalid character looking for beginning of value").
Proof.
  assert (Forall xrd_compiles [demo_xrd_version "v1" "{}"]) as Hbefore.
  { repeat constructor. by eexists _, _, _, _. }
  destruct (xrd_decode_failure_is_terminal
              (demo_xrd_versions [demo_xrd_version "v1" "{}";
                                  demo_xrd_version "v2" "not json";
                                  demo_xrd_version "v3" "{}"])
              [demo_xrd_version "v1" "{}"] [demo_xrd_version "v3" "{}"]
              (demo_xrd_version "v2" "not json")
              {| OpenAPIV3Schema_Raw := "not json" |}
              (External "invalid character looking for beginning of value")
              empty_store eq_refl Hbefore eq_refl eq_refl)
    as (Hv1 & _ & Hfin).
  split; [exact Hv1|].
  eapply Hfin; [reflexivity|by right|reflexivity].
Defined.

(** X14 at a walk that fails at its fourth visit. *)
Lemma FromDir_walk_error_witness :
  (FromDir demo_provider_marshaler demo_fs_failing "foo@v1.2.3"
           "xpkg.upbound.io" "acme/pkg" empty_store).1 =
    Fail (External "open foo@v1.2.3/locked: permission denied") /\
  trace (FromDir demo_provider_marshaler demo_fs_failing "foo@v1.2.3"
                 "xpkg.upbound.io" "acme/pkg" empty_store).2 =
    [CallWalk "foo@v1.2.3"].
Proof.
  assert (directory_at_version "foo@v1.2.3" "foo" "v1.2.3") as Hform
    by (repeat split).
  assert (Forall (fun vj => visit_err vj = None)
            [demo_dir "foo@v1.2.3"; demo_file "foo@v1.2.3/crd.yaml";
             demo_file "foo@v1.2.3/sha256:aaaa"]) as Hbefore
    by (repeat constructor).
  assert (Walk demo_fs_failing "foo@v1.2.3" =
          ([demo_dir "foo@v1.2.3"; demo_file "foo@v1.2.3/crd.yaml";
            demo_file "foo@v1.2.3/sha256:aaaa"] ++
           {| visit_path := "foo@v1.2.3/locked"; visit_info := {| IsDir := true |};
              visit_err :=
                Some (External "open foo@v1.2.3/locked: permission denied") |} ::
           [demo_file "foo@v1.2.3/crossplane.yaml"])%list) as Hwalk
    by reflexivity.
  exact (FromDir_walk_error demo_provider_marshaler demo_fs_failing
           "foo@v1.2.3" "xpkg.upbound.io" "acme/pkg" "foo" "v1.2.3"
           _ _ _ _ empty_store Hform Hwalk Hbefore eq_refl).
Defined.

(** X16 at the directory with two digest markers. *)
Lemma FromDir_success_inversion_witness :
  exists out,
    (FromDir demo_provider_marshaler demo_fs "foo@v1.2.3" "xpkg.upbound.io"
             "acme/pkg" empty_store).1 = Ok out /\
    Ver out = "v1.2.3" /\ SHA out = "sha256:bbbb" /\
    DepName out = "xpkg.upbound.io/acme/pkg" /\
    Forall (fun vi => visit_err vi = None) demo_fs.
Proof.
  pose (run := FromDir demo_provider_marshaler demo_fs "foo@v1.2.3"
                       "xpkg.upbound.io" "acme/pkg" empty_store).
  assert (run.1 = Ok (returned run.1 (demo_parsed []))) as Hrun
    by (vm_compute; reflexivity).
  subst run.
  destruct (FromDir_success_inversion demo_provider_marshaler demo_fs
              "foo@v1.2.3" "xpkg.upbound.io" "acme/pkg" empty_store _ Hrun)
    as (dir & ver & pkg & meta & Hform & Hwalk & _ & _ & _ & Hver & Hsha & _ &
        Hname & _).
  eexists.
  split_and!; [exact Hrun| |exact Hsha|exact Hname|exact Hwalk].
  rewrite Hver.
  apply strings_Split_directory_at_version in Hform.
  by injection Hform as _ <-.
Defined.

(** X15 at an image whose package holds one v1 definition: its schema
    was compiled, so every stage before the compiler succeeded. *)
Lemma compile_only_after_lint_witness :
  exists pkg meta mp,
    p demo_provider_marshaler [] = inr pkg /\ GetMeta pkg = [meta] /\
    Lint (linter_for meta) pkg = None /\ TryConvertToPkg meta = Some mp.
Proof.
  assert (compilations
            (trace (FromImage demo_provider_marshaler "xpkg.upbound.io"
                              "acme/pkg" "v0.1.0" "sha256:cafe" empty_store).2) <>
          compilations (trace empty_store)) as Hcompiled
    by (vm_compute; discriminate).
  destruct (compile_only_after_lint demo_provider_marshaler "xpkg.upbound.io"
              "acme/pkg" empty_store) as [Himage _].
  destruct (Himage "v0.1.0" "sha256:cafe" Hcompiled)
    as (dg & pkgYaml & pkg & meta & mp & _ & Hopen & Hp & Hmeta & Hlint & Hconv).
  injection Hopen as <-.
  by exists pkg, meta, mp.
Defined.

End FurtherRuns.

Section StrictRuns.
#[local] Existing Instance demo_types.
#[local] Existing Instance demo_strict_co.

(** X3 at a decoder that fails and at a package without body objects,
    which the linter rejects. *)
Lemma parse_wraps_collaborator_errors_witness :
  parse demo_failing_marshaler
        [] empty_store =
    (Fail (Wrap (External "yaml: line 3: mapping values are not allowed")
                "failed to parse package yaml"),
     log CallParse empty_store) /\
  parse (demo_marshaler demo_decoded_empty)
        [] empty_store =
    (Fail (Wrap (External "package has no objects") "failed to lint package"),
     log (CallLint ConfigurationLinter) (log CallParse empty_store)).
Proof.
  split.
  - by apply (parse_wraps_collaborator_errors
                demo_failing_marshaler
                [] empty_store).
  - by apply (proj2 (parse_wraps_collaborator_errors
                (demo_marshaler demo_decoded_empty)
                [] empty_store)
                demo_decoded_empty
                demo_configuration_meta).
Defined.

(** X7 at an image without digest and at one without manifest stream. *)
Lemma FromImage_acquisition_failures_witness :
  FromImage demo_provider_marshaler "xpkg.upbound.io" "acme/pkg" "v0.1.0"
            EmptyString empty_store =
    (Fail (Wrap (External "no digest") "failed to pull digest from image"),
     log CallDigest empty_store) /\
  FromImage demo_provider_marshaler "xpkg.upbound.io" "acme/pkg" "v0.1.0"
            "sha256:empty" empty_store =
    (Fail (Wrap (External "file not found") "failed to open package stream file"),
     log CallOpenStreamFile (log CallDigest empty_store)).
Proof.
  split.
  - by apply (FromImage_acquisition_failures demo_provider_marshaler
                "xpkg.upbound.io" "acme/pkg" "v0.1.0" EmptyString empty_store).
  - by apply (proj2 (FromImage_acquisition_failures demo_provider_marshaler
                "xpkg.upbound.io" "acme/pkg" "v0.1.0" "sha256:empty" empty_store)
                "sha256:empty").
Defined.

(** X9 at a legacy definition without group and at one whose top-level
    schema does not compile while its version's own schema would. *)
Lemma legacy_crd_failures_register_nothing_witness :
  validatorsFromV1Beta1CRD (demo_legacy_crd_with EmptyString "top") empty_store =
    (Fail (External "group is required"), empty_store) /\
  (validatorsFromV1Beta1CRD (demo_legacy_crd_with "example.org" "bad")
                            empty_store).1 =
    Fail (External "schema does not compile") /\
  acc (validatorsFromV1Beta1CRD (demo_legacy_crd_with "example.org" "bad")
                                empty_store).2 = ∅.
Proof.
  split.
  - by apply (legacy_crd_failures_register_nothing
                (demo_legacy_crd_with EmptyString "top") empty_store).
  - assert (Convert_v1beta1_CustomResourceDefinition
              (demo_legacy_crd_with "example.org" "bad") =
            inr (demo_legacy_crd_with "example.org" "bad")) as Hconv
      by reflexivity.
    assert (legacy_Validation (Spec (demo_legacy_crd_with "example.org" "bad")) =
            Some {| OpenAPIV3Schema := Some "bad" |}) as Hval by reflexivity.
    assert (validation_schema (Some {| OpenAPIV3Schema := Some "bad" |}) =
            inl (External "schema does not compile")) as Hsch by reflexivity.
    destruct (proj2 (legacy_crd_failures_register_nothing
                       (demo_legacy_crd_with "example.org" "bad") empty_store)
                _ _ _ Hconv Hval Hsch) as (Hfail & Hacc & _).
    by split.
Defined.

(** X17 at a v1 definition whose second version fails the first
    conversion and at one whose second version fails the second. *)
Lemma v1_crd_refused_schema_is_terminal_witness :
  (validatorsFromV1CRD
     (demo_v1_crd [demo_v1_version "v1" "{}";
                   demo_v1_version "v2" "unconvertible";
                   demo_v1_version "v3" "{}"]) empty_store).1 =
    Fail (External "conversion failed") /\
  next_addr (validatorsFromV1CRD
               (demo_v1_crd [demo_v1_version "v1" "{}";
                             demo_v1_version "v2" "unsupported";
                             demo_v1_version "v3" "{}"]) empty_store).2 = 1 /\
  (finalizePkg "xpkg.upbound.io" "acme/pkg" "v0.1.0" "sha256:cafe"
     (demo_parsed
        [demo_object "CustomResourceDefinition"
           (v1ext_CRD (demo_v1_crd [demo_v1_version "v1" "{}";
                                    demo_v1_version "v2" "unsupported";
                                    demo_v1_version "v3" "{}"]));
         demo_unknown]) empty_store).1 =
    Fail (External "post-processing failed").
Proof.
  assert (Forall2 compiles_to [demo_v1_version "v1" "{}"] ["{}"]) as Hbefore.
  { repeat constructor. by eexists _, _, _. }
  assert (refused_with "unconvertible" (External "conversion failed")) as Hfirst
    by (by left).
  assert (refused_with "unsupported" (External "post-processing failed"))
    as Hsecond by (right; by eexists).
  destruct (v1_crd_refused_schema_is_terminal
              (demo_v1_crd [demo_v1_version "v1" "{}";
                            demo_v1_version "v2" "unconvertible";
                            demo_v1_version "v3" "{}"])
              [demo_v1_version "v1" "{}"] [demo_v1_version "v3" "{}"]
              (demo_v1_version "v2" "unconvertible")
              {| OpenAPIV3Schema := Some "unconvertible" |} "unconvertible"
              ["{}"] (External "conversion failed") empty_store
              eq_refl Hbefore eq_refl eq_refl Hfirst) as (Hfail & _ & _).
  destruct (v1_crd_refused_schema_is_terminal
              (demo_v1_crd [demo_v1_version "v1" "{}";
                            demo_v1_version "v2" "unsupported";
                            demo_v1_version "v3" "{}"])
              [demo_v1_version "v1" "{}"] [demo_v1_version "v3" "{}"]
              (demo_v1_version "v2" "unsupported")
              {| OpenAPIV3Schema := Some "unsupported" |} "unsupported"
              ["{}"] (External "post-processing failed") empty_store
              eq_refl Hbefore eq_refl eq_refl Hsecond) as (_ & Hnext & Hfin).
  split_and!; [exact Hfail|exact Hnext|].
  eapply Hfin; reflexivity.
Defined.

End StrictRuns.
